(** * Printer socket installer: a shallow embedding of the two Go programs

    The repository holds two versions of one administrative script:

    - [src/main.go]: the Epson installer.  The printer device is fixed
      ([/dev/usb/lp0]); both unit file contents are constants.
    - [src/unnamed/part_000]: the ESC/POS installer.  It discovers the USB
      printers, lets the user pick one and formats the service unit with the
      chosen device path.

    Both are sequential scripts over the operating system: they print, read
    the effective user id, glob and stat the file system, read standard
    input, write files and run external commands.  The embedding threads an
    explicit event trace through a small state-and-exit monad; the operating
    system is a record of oracles giving the answer of every call. *)

From Stdlib Require Import ZArith List String Ascii Bool Lia.
From Stdlib Require Import DecimalString.
Import ListNotations.

Local Open Scope string_scope.
Local Open Scope Z_scope.

(** ** Strings and formatting (Go's [strings] and [fmt]) *)

(** The line feed, written [\n] in Go's interpreted string literals. *)
Definition LF : string := String (ascii_of_nat 10) EmptyString.

(** A Go raw string literal that spans lines, every line ended by a line
    feed (the closing back quote stands at the start of a line). *)
Fixpoint rawLines (ls : list string) : string :=
  match ls with
  | [] => ""
  | l :: ls' => l ++ LF ++ rawLines ls'
  end.

(** [strings.Join]. *)
Definition strings_Join (elems : list string) (sep : string) : string :=
  String.concat sep elems.

(** Base-10 rendering of an integer, as the [%d] verb prints it. *)
Definition itoa (n : Z) : string := NilZero.string_of_int (Z.to_int n).

(** A Go [error] value is represented by the text its [Error()] method
    returns; a nil error is [None]. *)
Definition error := string.

(** Operands of the formatting functions.  An error operand is passed as
    its [Error()] text, which is what [%v] and [%s] print for it. *)
Inductive Arg :=
| AStr (s : string)
| AInt (n : Z).

Definition argType (a : Arg) : string :=
  match a with AStr _ => "string" | AInt _ => "int" end.

(** The default format of an operand ([%v]). *)
Definition argValue (a : Arg) : string :=
  match a with AStr s => s | AInt n => itoa n end.

(** What [fmt] prints for an operand that does not fit the verb. *)
Definition badVerb (verb : ascii) (a : Arg) : string :=
  "%!" ++ String verb "" ++ "(" ++ argType a ++ "=" ++ argValue a ++ ")".

Definition formatVerb (wrap : bool) (verb : ascii) (a : Arg) : string :=
  match verb, a with
  | "v"%char, _ => argValue a
  | "s"%char, AStr s => s
  | "d"%char, AInt n => itoa n
  | "w"%char, _ => if wrap then argValue a else badVerb verb a
  | _, _ => badVerb verb a
  end.

Fixpoint extraArgs (args : list Arg) : string :=
  match args with
  | [] => ""
  | [a] => argType a ++ "=" ++ argValue a
  | a :: rest => argType a ++ "=" ++ argValue a ++ ", " ++ extraArgs rest
  end.

(** The formatting loop of [fmt], for the plain verbs the programs use
    ([%s], [%d], [%v], and [%w] inside [Errorf]); flags, widths and
    explicit operand indexes are not used by the programs and not
    modelled.  Operands are consumed left to right. *)
Fixpoint doPrintf (wrap : bool) (format : string) (args : list Arg) : string :=
  match format with
  | EmptyString =>
      match args with
      | [] => ""
      | _ => "%!(EXTRA " ++ extraArgs args ++ ")"
      end
  | String "%"%char EmptyString => "%!(NOVERB)"
  | String "%"%char (String "%"%char rest) => String "%"%char (doPrintf wrap rest args)
  | String "%"%char (String verb rest) =>
      match args with
      | [] => "%!" ++ String verb "" ++ "(MISSING)" ++ doPrintf wrap rest []
      | a :: args' => formatVerb wrap verb a ++ doPrintf wrap rest args'
      end
  | String c rest => String c (doPrintf wrap rest args)
  end.

(** [fmt.Sprintf]. *)
Definition Sprintf (format : string) (args : list Arg) : string :=
  doPrintf false format args.

(** [fmt.Errorf]: the text of the error it builds. *)
Definition Errorf (format : string) (args : list Arg) : error :=
  doPrintf true format args.

(** [fmt.Sprintln]: default formats, a space between operands, a line feed
    at the end. *)
Definition Sprintln (args : list Arg) : string :=
  strings_Join (map argValue args) " " ++ LF.

(** [fmt.Sprint]: default formats; a space goes between two operands when
    neither is a string. *)
Fixpoint Sprint (args : list Arg) : string :=
  match args with
  | [] => ""
  | [a] => argValue a
  | a :: ((b :: _) as rest) =>
      match a, b with
      | AInt _, AInt _ => argValue a ++ " " ++ Sprint rest
      | _, _ => argValue a ++ Sprint rest
      end
  end.

(** ** The operating system seen by the programs *)

(** Go's [(T, error)] results. *)
Inductive result (A : Type) :=
| Ok (a : A)
| Err (e : error).
Arguments Ok {A} a.
Arguments Err {A} e.

(** [os.FileInfo], reduced to what the programs read from it. *)
Record FileInfo := { Mode : Z }.

(** [os.ModeCharDevice], bit 21 of [fs.FileMode] in Go's [io/fs]
    ([ModeDir] is bit 31 and the constants go down from there). *)
Definition ModeCharDevice : Z := Z.shiftl 1 21.

(** One call of [fmt.Scanln(&choice)]: either an integer was scanned and
    stored and the call returned a nil error, or the call returned an
    error, possibly after it had stored a scanned integer (a line such as
    [3 4]). *)
Inductive ScanResult :=
| ScanOk (n : Z)
| ScanErr (stored : option Z) (e : error).

(** The answers of the operating system.  Every path is written at most
    once and every command is run at most once by the programs, so the
    answers are indexed by the arguments of the call; standard input is
    indexed by the number of earlier [Scanln] calls. *)
Record OS := {
  euid : Z;
  globResult : string -> result (list string);
  statResult : string -> result FileInfo;
  scanResult : nat -> ScanResult;
  writeResult : string -> string -> Z -> option error;
  commandResult : list string -> string * option error
}.

(** What a run does to the outside world, in order. *)
Inductive Event :=
| Stdout (text : string)
| LogFatal (text : string)
| Geteuid
| Glob (pattern : string)
| Stat (name : string)
| Scanln (r : ScanResult)
| WriteFile (name data : string) (perm : Z) (err : option error)
| Exec (args : list string) (output : string) (err : option error).

Record State := {
  trace : list Event;
  nscan : nat
}.

Definition initial : State := {| trace := []; nscan := 0 |}.

Definition record (s : State) (evs : list Event) : State :=
  {| trace := trace s ++ evs; nscan := nscan s |}.

(** How a computation ends: with a value, by [os.Exit], by a run-time
    panic, or not within the given number of loop iterations. *)
Inductive Outcome (A : Type) :=
| Done (a : A)
| Exit (code : Z)
| Panic (msg : string)
| OutOfFuel.
Arguments Done {A} a.
Arguments Exit {A} code.
Arguments Panic {A} msg.
Arguments OutOfFuel {A}.

Definition M (A : Type) : Type := OS -> State -> Outcome A * State.

Definition ret {A} (a : A) : M A := fun _ s => (Done a, s).

Definition bind {A B} (m : M A) (f : A -> M B) : M B :=
  fun os s =>
    match m os s with
    | (Done a, s') => f a os s'
    | (Exit c, s') => (Exit c, s')
    | (Panic msg, s') => (Panic msg, s')
    | (OutOfFuel, s') => (OutOfFuel, s')
    end.

Notation "x <- m ;; k" := (bind m (fun x => k))
  (at level 61, m at next level, right associativity).
Notation "m ;; k" := (bind m (fun _ => k))
  (at level 61, right associativity).

Definition emit (e : Event) : M unit := fun _ s => (Done tt, record s [e]).

Definition os_Exit {A} (code : Z) : M A := fun _ s => (Exit code, s).

Definition panic {A} (msg : string) : M A := fun _ s => (Panic msg, s).

Definition outOfFuel {A} : M A := fun _ s => (OutOfFuel, s).

(** *** The library calls *)

Definition fmt_Println (args : list Arg) : M unit := emit (Stdout (Sprintln args)).

Definition fmt_Print (args : list Arg) : M unit := emit (Stdout (Sprint args)).

Definition fmt_Printf (format : string) (args : list Arg) : M unit :=
  emit (Stdout (Sprintf format args)).

(** [log.Fatal] and [log.Fatalf] hand the text to the standard logger and
    call [os.Exit(1)].  The logger's time stamp is not part of the model. *)
Definition log_Fatal {A} (args : list Arg) : M A :=
  emit (LogFatal (Sprint args));; os_Exit 1.

Definition log_Fatalf {A} (format : string) (args : list Arg) : M A :=
  emit (LogFatal (Sprintf format args));; os_Exit 1.

Definition os_Geteuid : M Z := fun os s => (Done (euid os), record s [Geteuid]).

Definition filepath_Glob (pattern : string) : M (result (list string)) :=
  fun os s => (Done (globResult os pattern), record s [Glob pattern]).

Definition os_Stat (name : string) : M (result FileInfo) :=
  fun os s => (Done (statResult os name), record s [Stat name]).

(** [fmt.Scanln(&choice)]: the new value of [choice] and the error. *)
Definition fmt_Scanln (choice : Z) : M (Z * option error) :=
  fun os s =>
    let r := scanResult os (nscan s) in
    let s' := {| trace := trace s ++ [Scanln r]; nscan := S (nscan s) |} in
    match r with
    | ScanOk n => (Done (n, None), s')
    | ScanErr (Some n) e => (Done (n, Some e), s')
    | ScanErr None e => (Done (choice, Some e), s')
    end.

Definition os_WriteFile (name data : string) (perm : Z) : M (option error) :=
  fun os s =>
    let err := writeResult os name data perm in
    (Done err, record s [WriteFile name data perm err]).

(** [exec.Command(name, arg...)] followed by [cmd.CombinedOutput()];
    [cmd.Args] is the whole argument vector. *)
Definition CombinedOutput (cmdArgs : list string) : M (string * option error) :=
  fun os s =>
    let '(output, err) := commandResult os cmdArgs in
    (Done (output, err), record s [Exec cmdArgs output err]).

(** *** Control structures *)

Definition len {A} (l : list A) : Z := Z.of_nat (List.length l).

(** [for i, x := range l { body }]. *)
Fixpoint rangeFrom {A} (i : Z) (l : list A) (body : Z -> A -> M unit) : M unit :=
  match l with
  | [] => ret tt
  | x :: l' => body i x;; rangeFrom (i + 1) l' body
  end.

Definition forRange {A} (l : list A) (body : Z -> A -> M unit) : M unit :=
  rangeFrom 0 l body.

(** [l[i]] on a slice: a run-time panic outside [0 <= i < len(l)]. *)
Definition index (l : list string) (i : Z) : M string :=
  if (i <? 0) || (len l <=? i)
  then panic "index out of range"
  else ret (nth (Z.to_nat i) l "").

Definition isNil (err : option error) : bool :=
  match err with None => true | Some _ => false end.

(** Mode 0644. *)
Definition perm0644 : Z := 6 * 64 + 4 * 8 + 4.

Definition run {A} (m : M A) (os : OS) : Outcome A * State := m os initial.

(** ** [src/main.go]: the Epson installer *)

Module Epson.

Definition socketFileContent : string :=
  rawLines [
    "[Unit]";
    "Description=Epson Printer Socket";
    "";
    "[Socket]";
    "ListenStream=0.0.0.0:9100";
    "Accept=yes";
    "";
    "[Install]";
    "WantedBy=sockets.target"
  ].

Definition serviceFileContent : string :=
  rawLines [
    "[Unit]";
    "Description=Epson Printer Service";
    "";
    "[Service]";
    "ExecStart=-/usr/bin/tee /dev/null > /dev/usb/lp0";
    "StandardInput=socket"
  ].

Definition socketFilePath : string := "/etc/systemd/system/epson-printer.socket".
Definition serviceFilePath : string := "/etc/systemd/system/epson-printer@.service".

Definition commands : list (list string) := [
  ["systemctl"; "daemon-reload"];
  ["systemctl"; "enable"; "--now"; "epson-printer.socket"];
  ["systemctl"; "restart"; "epson-printer.socket"]
].

(** The body of the loop over [commands]. *)
Definition runCommand (cmdArgs : list string) : M unit :=
  match cmdArgs with
  | [] => panic "index out of range"
  | _ :: _ =>
      fmt_Printf ("Executing: %s..." ++ LF) [AStr (strings_Join cmdArgs " ")];;
      r <- CombinedOutput cmdArgs;;
      let '(output, err) := r in
      match err with
      | Some e =>
          log_Fatalf ("Failed to execute command '%s': %v" ++ LF ++ "Output: %s")
            [AStr (strings_Join cmdArgs " "); AStr e; AStr output]
      | None => fmt_Printf ("✓ Command successful." ++ LF) []
      end
  end.

Definition main : M unit :=
  fmt_Println [AStr "Starting Epson Printer Service Setup..."];;
  uid <- os_Geteuid;;
  (if negb (uid =? 0)
   then log_Fatal [AStr "This program must be run as root or with sudo."]
   else ret tt);;
  fmt_Println [AStr "✓ Root privileges confirmed."];;
  err <- os_WriteFile socketFilePath socketFileContent perm0644;;
  (match err with
   | Some e => log_Fatalf "Failed to write socket file: %v" [AStr e]
   | None => ret tt
   end);;
  fmt_Printf ("✓ Successfully created %s" ++ LF) [AStr socketFilePath];;
  err <- os_WriteFile serviceFilePath serviceFileContent perm0644;;
  (match err with
   | Some e => log_Fatalf "Failed to write service file: %v" [AStr e]
   | None => ret tt
   end);;
  fmt_Printf ("✓ Successfully created %s" ++ LF) [AStr serviceFilePath];;
  forRange commands (fun _ cmdArgs => runCommand cmdArgs);;
  fmt_Println [AStr (LF ++ "🎉 Setup complete! The epson printer socket is active and enabled.")];;
  fmt_Println [AStr "The PC is now ready to accept print jobs on TCP port 9100."].

End Epson.

(** ** [src/unnamed/part_000]: the ESC/POS installer *)

Module Escpos.

Definition socketFileContent : string :=
  rawLines [
    "[Unit]";
    "Description=ESC/POS Printer Socket";
    "";
    "[Socket]";
    "ListenStream=0.0.0.0:9100";
    "Accept=yes";
    "";
    "[Install]";
    "WantedBy=sockets.target"
  ].

(** The format string handed to [fmt.Sprintf] by [serviceFileContent]. *)
Definition serviceFileFormat : string :=
  rawLines [
    "[Unit]";
    "Description=ESC/POS Printer Service";
    "";
    "[Service]";
    "ExecStart=-/usr/bin/tee /dev/null > %s";
    "StandardInput=socket"
  ].

Definition serviceFileContent (printerPath : string) : string :=
  Sprintf serviceFileFormat [AStr printerPath].

(** The loop of [findPrinters] over the glob matches; [printers] is the
    slice built so far. *)
Fixpoint findPrinters_range (matches printers : list string) : M (list string) :=
  match matches with
  | [] => ret printers
  | m :: rest =>
      r <- os_Stat m;;
      match r with
      | Err _ => findPrinters_range rest printers
      | Ok info =>
          if negb (Z.land (Mode info) ModeCharDevice =? 0)
          then findPrinters_range rest (printers ++ [m])%list
          else findPrinters_range rest printers
      end
  end.

Definition findPrinters : M (result (list string)) :=
  r <- filepath_Glob "/dev/usb/lp*";;
  match r with
  | Err err => ret (Err (Errorf "error al buscar impresoras: %w" [AStr err]))
  | Ok matches =>
      printers <- findPrinters_range matches [];;
      ret (Ok printers)
  end.

(** The [for { ... }] loop of [selectPrinter]; [fuel] bounds the number of
    iterations and [choice] is the variable [Scanln] stores into. *)
Fixpoint selectPrinter_loop (fuel : nat) (printers : list string) (choice : Z) : M Z :=
  match fuel with
  | O => outOfFuel
  | S fuel' =>
      fmt_Print [AStr "Por favor, selecciona el número de la impresora que deseas usar: "];;
      r <- fmt_Scanln choice;;
      let '(choice, err) := r in
      if negb (isNil err) || (choice <? 1) || (choice >? len printers)
      then
        fmt_Println [AStr "Entrada inválida. Por favor, ingresa un número de la lista."];;
        selectPrinter_loop fuel' printers choice
      else ret choice
  end.

Definition selectPrinter (fuel : nat) (printers : list string) : M (result string) :=
  if len printers =? 0
  then ret (Err (Errorf "no se encontraron impresoras USB en /dev/usb/lpX" []))
  else
    fmt_Println [AStr (LF ++ "Se encontraron las siguientes impresoras USB:")];;
    forRange printers (fun i p => fmt_Printf ("%d. %s" ++ LF) [AInt (i + 1); AStr p]);;
    choice <- selectPrinter_loop fuel printers 0;;
    p <- index printers (choice - 1);;
    ret (Ok p).

Definition socketFilePath : string := "/etc/systemd/system/escpos-printer.socket".
Definition serviceFilePath : string := "/etc/systemd/system/escpos-printer@.service".

Definition commands : list (list string) := [
  ["systemctl"; "daemon-reload"];
  ["systemctl"; "enable"; "--now"; "escpos-printer.socket"];
  ["systemctl"; "restart"; "escpos-printer.socket"]
].

(** The body of the loop over [commands]. *)
Definition runCommand (cmdArgs : list string) : M unit :=
  match cmdArgs with
  | [] => panic "index out of range"
  | _ :: _ =>
      fmt_Printf ("Ejecutando: %s..." ++ LF) [AStr (strings_Join cmdArgs " ")];;
      r <- CombinedOutput cmdArgs;;
      let '(output, err) := r in
      match err with
      | Some e =>
          log_Fatalf ("Error al ejecutar el comando '%s': %v" ++ LF ++ "Salida: %s")
            [AStr (strings_Join cmdArgs " "); AStr e; AStr output]
      | None => fmt_Printf ("✓ Comando exitoso." ++ LF) []
      end
  end.

Definition main (fuel : nat) : M unit :=
  fmt_Println [AStr "Iniciando la configuración del servicio de impresora ESC/POS..."];;
  uid <- os_Geteuid;;
  (if negb (uid =? 0)
   then log_Fatal [AStr "Este programa debe ejecutarse como root o con sudo."]
   else ret tt);;
  fmt_Println [AStr "✓ Permisos de root confirmados."];;
  r <- findPrinters;;
  match r with
  | Err e => log_Fatalf "Error: %v" [AStr e]
  | Ok printers =>
      fmt_Println [AInt (len printers)];;
      forRange printers (fun _ printer => fmt_Println [AStr printer]);;
      r <- selectPrinter fuel printers;;
      match r with
      | Err e => log_Fatalf "Error: %v" [AStr e]
      | Ok selectedPrinter =>
          fmt_Printf ("✓ Impresora seleccionada: %s" ++ LF) [AStr selectedPrinter];;
          err <- os_WriteFile socketFilePath socketFileContent perm0644;;
          (match err with
           | Some e => log_Fatalf "Error al escribir el archivo de socket: %v" [AStr e]
           | None => ret tt
           end);;
          fmt_Printf ("✓ Archivo de socket creado exitosamente: %s" ++ LF) [AStr socketFilePath];;
          let serviceContent := serviceFileContent selectedPrinter in
          err <- os_WriteFile serviceFilePath serviceContent perm0644;;
          (match err with
           | Some e => log_Fatalf "Error al escribir el archivo de servicio: %v" [AStr e]
           | None => ret tt
           end);;
          fmt_Printf ("✓ Archivo de servicio creado exitosamente: %s" ++ LF) [AStr serviceFilePath];;
          forRange commands (fun _ cmdArgs => runCommand cmdArgs);;
          fmt_Println [AStr (LF ++ "🎉 ¡Configuración completa! El socket de la impresora ESC/POS está activo y habilitado.")];;
          fmt_Println [AStr "La PC está lista para aceptar trabajos de impresión en el puerto TCP 9100."]
      end
  end.

End Escpos.

(** ** Test runs *)

Definition charDevice : FileInfo := {| Mode := Z.shiftl 1 26 + Z.shiftl 1 21 + 432 |}.
Definition regularFile : FileInfo := {| Mode := 420 |}.

(** A machine with two printers and one stray regular file; the user first
    types a number that is out of range, then [2]. *)
Definition demoOS : OS := {|
  euid := 0;
  globResult := fun _ => Ok ["/dev/usb/lp0"; "/dev/usb/lp1"; "/dev/usb/lpx"];
  statResult := fun name =>
    if String.eqb name "/dev/usb/lpx" then Ok regularFile else Ok charDevice;
  scanResult := fun i => match i with O => ScanOk 7 | _ => ScanOk 2 end;
  writeResult := fun _ _ _ => None;
  commandResult := fun _ => ("", None)
|}.

(** The same machine for a user who is not root. *)
Definition nonRootOS : OS := {|
  euid := 1000;
  globResult := globResult demoOS;
  statResult := statResult demoOS;
  scanResult := scanResult demoOS;
  writeResult := writeResult demoOS;
  commandResult := commandResult demoOS
|}.

(** The test machine when the user types [1] at once. *)
Definition firstChoiceOS : OS := {|
  euid := 0;
  globResult := globResult demoOS;
  statResult := statResult demoOS;
  scanResult := fun _ => ScanOk 1;
  writeResult := writeResult demoOS;
  commandResult := commandResult demoOS
|}.

(** A machine whose only match of the pattern is a regular file. *)
Definition noPrinterOS : OS := {|
  euid := 0;
  globResult := fun _ => Ok ["/dev/usb/lpx"];
  statResult := statResult demoOS;
  scanResult := scanResult demoOS;
  writeResult := writeResult demoOS;
  commandResult := commandResult demoOS
|}.

(** The test machine when [systemctl enable] fails. *)
Definition enableFailsOS : OS := {|
  euid := 0;
  globResult := globResult demoOS;
  statResult := statResult demoOS;
  scanResult := scanResult demoOS;
  writeResult := writeResult demoOS;
  commandResult := fun args =>
    match args with
    | _ :: verb :: _ =>
        if String.eqb verb "enable"
        then ("Failed to enable unit: Access denied", Some "exit status 1")
        else ("", None)
    | _ => ("", None)
    end
|}.

(** ** Observations on traces *)

Definition isWrite (e : Event) : bool :=
  match e with WriteFile _ _ _ _ => true | _ => false end.

Definition isExec (e : Event) : bool :=
  match e with Exec _ _ _ => true | _ => false end.

Definition isScan (e : Event) : bool :=
  match e with Scanln _ => true | _ => false end.

(** An event that neither writes a file nor runs a command. *)
Definition quiet (e : Event) : bool := negb (isWrite e || isExec e).

Definition writesOf (t : list Event) : list Event := filter isWrite t.
Definition execsOf (t : list Event) : list Event := filter isExec t.

(** The names of the files written, in order. *)
Definition writeNames (t : list Event) : list string :=
  flat_map (fun e => match e with WriteFile name _ _ _ => [name] | _ => [] end) t.

(** The argument vectors of the commands run, in order. *)
Definition execArgs (t : list Event) : list (list string) :=
  flat_map (fun e => match e with Exec args _ _ => [args] | _ => [] end) t.

(** A write or a command that returned an error. *)
Definition failed (e : Event) : bool :=
  match e with
  | WriteFile _ _ _ (Some _) | Exec _ _ (Some _) => true
  | _ => false
  end.

(** The code's test for a character device, on the result of [os.Stat]. *)
Definition charDeviceAt (os : OS) (name : string) : bool :=
  match statResult os name with
  | Ok info => Z.testbit (Mode info) 21
  | Err _ => false
  end.

(** Whether [selectPrinter] accepts the outcome of one [Scanln] call. *)
Definition accepted (printers : list string) (r : ScanResult) : bool :=
  match r with
  | ScanOk n => (1 <=? n) && (n <=? len printers)
  | ScanErr _ _ => false
  end.

(** The numbered list [i. path], one line per printer, counting from [i]. *)
Fixpoint numberedFrom (i : Z) (printers : list string) : list Event :=
  match printers with
  | [] => []
  | p :: rest => Stdout (itoa i ++ ". " ++ p ++ LF) :: numberedFrom (i + 1) rest
  end.

Definition promptText : string :=
  "Por favor, selecciona el número de la impresora que deseas usar: ".

Definition invalidText : string :=
  "Entrada inválida. Por favor, ingresa un número de la lista." ++ LF.

Definition headerText : string :=
  LF ++ "Se encontraron las siguientes impresoras USB:" ++ LF.

Definition noPrintersText : error := "no se encontraron impresoras USB en /dev/usb/lpX".

(** The dialogue of [n] rejected inputs, read from position [start] of
    standard input on. *)
Fixpoint rejections (os : OS) (start n : nat) : list Event :=
  match n with
  | O => []
  | S n' =>
      [Stdout promptText; Scanln (scanResult os start); Stdout invalidText]
        ++ rejections os (S start) n'
  end.

(** Lines of a text: the pieces between line feeds. *)
Fixpoint lines (s : string) : list string :=
  match s with
  | EmptyString => [""]
  | String c rest =>
      if Ascii.eqb c (ascii_of_nat 10) then "" :: lines rest
      else
        match lines rest with
        | [] => [String c ""]
        | l :: ls => String c l :: ls
        end
  end.

(** The events of the loop over [commands], as the operating system
    answers: the commands up to and including the first one that fails.
    [announce] and [success] are the two messages printed around a command,
    [failure] the text logged for a failing one. *)
Fixpoint commandEvents (announce : list string -> string) (success : string)
    (failure : list string -> error -> string -> string)
    (os : OS) (cmds : list (list string)) : list Event :=
  match cmds with
  | [] => []
  | c :: rest =>
      match commandResult os c with
      | (output, None) =>
          [Stdout (announce c); Exec c output None; Stdout success]
            ++ commandEvents announce success failure os rest
      | (output, Some e) =>
          [Stdout (announce c); Exec c output (Some e); LogFatal (failure c e output)]
      end
  end.

(** Whether every command of the list succeeds. *)
Definition allSucceed (os : OS) (cmds : list (list string)) : bool :=
  forallb (fun c => isNil (snd (commandResult os c))) cmds.

(** A file content varies between runs: two runs write different data
    under the same name. *)
Definition variesBetweenRuns (runTrace : nat -> OS -> list Event) (name : string) : Prop :=
  exists fuel1 os1 fuel2 os2 d1 perm1 e1 d2 perm2 e2,
    In (WriteFile name d1 perm1 e1) (runTrace fuel1 os1) /\
    In (WriteFile name d2 perm2 e2) (runTrace fuel2 os2) /\
    d1 <> d2.

Definition escposTrace (fuel : nat) (os : OS) : list Event :=
  trace (snd (run (Escpos.main fuel) os)).

Definition epsonTrace (os : OS) : list Event :=
  trace (snd (run Epson.main os)).

(** The commands the loop runs, as the operating system answers: those up
    to and including the first one that fails. *)
Fixpoint attempted (os : OS) (cmds : list (list string)) : list (list string) :=
  match cmds with
  | [] => []
  | c :: rest =>
      if isNil (snd (commandResult os c)) then c :: attempted os rest else [c]
  end.

(** *** The expected trace of an installer from the first write on *)

(** The three [systemctl] invocations for the socket unit [name]. *)
Definition systemctlCommands (name : string) : list (list string) := [
  ["systemctl"; "daemon-reload"];
  ["systemctl"; "enable"; "--now"; name ++ ".socket"];
  ["systemctl"; "restart"; name ++ ".socket"]
].

(** What one installer writes, runs and prints from the first write on.
    The two programs differ in these only. *)
Record Script := {
  socketPath : string;
  socketData : string;
  servicePath : string;
  serviceData : string;
  socketCreated : string;
  serviceCreated : string;
  socketFailed : error -> string;
  serviceFailed : error -> string;
  cmds : list (list string);
  announce : list string -> string;
  success : string;
  failure : list string -> error -> string -> string;
  farewell : list string
}.

Definition socketWrite (x : Script) (os : OS) : option error :=
  writeResult os (socketPath x) (socketData x) perm0644.

Definition serviceWrite (x : Script) (os : OS) : option error :=
  writeResult os (servicePath x) (serviceData x) perm0644.

Definition writePhase (x : Script) (os : OS) : list Event :=
  WriteFile (socketPath x) (socketData x) perm0644 (socketWrite x os) ::
  match socketWrite x os with
  | Some e => [LogFatal (socketFailed x e)]
  | None =>
      Stdout (socketCreated x) ::
      WriteFile (servicePath x) (serviceData x) perm0644 (serviceWrite x os) ::
      match serviceWrite x os with
      | Some e => [LogFatal (serviceFailed x e)]
      | None => [Stdout (serviceCreated x)]
      end
  end.

Definition writesSucceed (x : Script) (os : OS) : bool :=
  isNil (socketWrite x os) && isNil (serviceWrite x os).

Definition commandPhase (x : Script) (os : OS) : list Event :=
  commandEvents (announce x) (success x) (failure x) os (cmds x)
    ++ (if allSucceed os (cmds x) then map Stdout (farewell x) else []).

Definition provisionEvents (x : Script) (os : OS) : list Event :=
  writePhase x os ++ (if writesSucceed x os then commandPhase x os else []).

Definition provisionOutcome (x : Script) (os : OS) : Outcome unit :=
  if writesSucceed x os && allSucceed os (cmds x) then Done tt else Exit 1.

Module EpsonTrace.

Definition announceText (cmdArgs : list string) : string :=
  "Executing: " ++ strings_Join cmdArgs " " ++ "..." ++ LF.

Definition successText : string := "✓ Command successful." ++ LF.

(** The text logged for a failing command: the command line, the error
    and the combined output. *)
Definition failureText (cmdArgs : list string) (e : error) (output : string) : string :=
  "Failed to execute command '" ++ strings_Join cmdArgs " " ++ "': " ++ e
    ++ LF ++ "Output: " ++ output.

Definition script : Script := {|
  socketPath := Epson.socketFilePath;
  socketData := Epson.socketFileContent;
  servicePath := Epson.serviceFilePath;
  serviceData := Epson.serviceFileContent;
  socketCreated := "✓ Successfully created " ++ Epson.socketFilePath ++ LF;
  serviceCreated := "✓ Successfully created " ++ Epson.serviceFilePath ++ LF;
  socketFailed := fun e => "Failed to write socket file: " ++ e;
  serviceFailed := fun e => "Failed to write service file: " ++ e;
  cmds := Epson.commands;
  announce := announceText;
  success := successText;
  failure := failureText;
  farewell := [
    LF ++ "🎉 Setup complete! The epson printer socket is active and enabled." ++ LF;
    "The PC is now ready to accept print jobs on TCP port 9100." ++ LF
  ]
|}.

(** The events before the writes, for a root user. *)
Definition greeting : list Event := [
  Stdout ("Starting Epson Printer Service Setup..." ++ LF);
  Geteuid;
  Stdout ("✓ Root privileges confirmed." ++ LF)
].

(** The run of a user who is not root. *)
Definition refused : list Event := [
  Stdout ("Starting Epson Printer Service Setup..." ++ LF);
  Geteuid;
  LogFatal "This program must be run as root or with sudo."
].

End EpsonTrace.

Module EscposTrace.

Definition announceText (cmdArgs : list string) : string :=
  "Ejecutando: " ++ strings_Join cmdArgs " " ++ "..." ++ LF.

Definition successText : string := "✓ Comando exitoso." ++ LF.

(** The text logged for a failing command: the command line, the error
    and the combined output. *)
Definition failureText (cmdArgs : list string) (e : error) (output : string) : string :=
  "Error al ejecutar el comando '" ++ strings_Join cmdArgs " " ++ "': " ++ e
    ++ LF ++ "Salida: " ++ output.

Definition script (selectedPrinter : string) : Script := {|
  socketPath := Escpos.socketFilePath;
  socketData := Escpos.socketFileContent;
  servicePath := Escpos.serviceFilePath;
  serviceData := Escpos.serviceFileContent selectedPrinter;
  socketCreated := "✓ Archivo de socket creado exitosamente: " ++ Escpos.socketFilePath ++ LF;
  serviceCreated := "✓ Archivo de servicio creado exitosamente: " ++ Escpos.serviceFilePath ++ LF;
  socketFailed := fun e => "Error al escribir el archivo de socket: " ++ e;
  serviceFailed := fun e => "Error al escribir el archivo de servicio: " ++ e;
  cmds := Escpos.commands;
  announce := announceText;
  success := successText;
  failure := failureText;
  farewell := [
    LF ++ "🎉 ¡Configuración completa! El socket de la impresora ESC/POS está activo y habilitado." ++ LF;
    "La PC está lista para aceptar trabajos de impresión en el puerto TCP 9100." ++ LF
  ]
|}.

(** The events before discovery, for a root user. *)
Definition greeting : list Event := [
  Stdout ("Iniciando la configuración del servicio de impresora ESC/POS..." ++ LF);
  Geteuid;
  Stdout ("✓ Permisos de root confirmados." ++ LF)
].

(** The run of a user who is not root. *)
Definition refused : list Event := [
  Stdout ("Iniciando la configuración del servicio de impresora ESC/POS..." ++ LF);
  Geteuid;
  LogFatal "Este programa debe ejecutarse como root o con sudo."
].

(** The printers [findPrinters] returns for a list of glob matches. *)
Definition discovered (os : OS) (matches : list string) : list string :=
  filter (charDeviceAt os) matches.

(** The events from discovery up to the selection prompt. *)
Definition discovery (os : OS) (matches : list string) : list Event :=
  Glob "/dev/usb/lp*" :: map Stat matches
    ++ Stdout (itoa (len (discovered os matches)) ++ LF)
    :: map (fun p => Stdout (p ++ LF)) (discovered os matches).

(** The line printed once a printer is selected. *)
Definition selectedLine (selectedPrinter : string) : Event :=
  Stdout ("✓ Impresora seleccionada: " ++ selectedPrinter ++ LF).

End EscposTrace.

(** *** Properties of a whole run: its outcome [o] and its trace [t] *)

(** The run stopped before the first write. *)
Definition Stops (o : Outcome unit) (t : list Event) : Prop :=
  forallb quiet t = true /\ (o = Exit 1 \/ o = OutOfFuel).

(** The run reached the first write and went on as the script says. *)
Definition Installs (x : Script) (os : OS) (o : Outcome unit) (t : list Event) : Prop :=
  exists pre,
    forallb quiet pre = true /\
    t = (pre ++ provisionEvents x os)%list /\
    o = provisionOutcome x os.

(** The unit files are written first, the socket file before the service
    file and no other file; a command runs only after both writes have
    succeeded; a failed write ends the run with no command run. *)
Definition writesBeforeCommands (socketName serviceName : string)
    (o : Outcome unit) (t : list Event) : Prop :=
  (exists k, writeNames t = firstn k [socketName; serviceName]) /\
  (o = Done tt -> writeNames t = [socketName; serviceName]) /\
  (forall pre e post,
     t = (pre ++ e :: post)%list -> isExec e = true ->
     exists d d',
       writesOf pre = [WriteFile socketName d perm0644 None;
                       WriteFile serviceName d' perm0644 None]) /\
  (existsb failed (writesOf t) = true -> o = Exit 1 /\ execsOf t = []).

(** The commands run are the first ones of [commands], in order; a run
    that completes has run them all without error; once both files are
    written the commands run up to and including the first failing one;
    after a failing command comes the fatal log line only. *)
Definition commandsFailFast (os : OS) (commands : list (list string))
    (failureText : list string -> error -> string -> string)
    (o : Outcome unit) (t : list Event) : Prop :=
  (exists k, execArgs t = firstn k commands) /\
  (o = Done tt -> execArgs t = commands /\ existsb failed (execsOf t) = false) /\
  (List.length (writesOf t) = 2%nat -> existsb failed (writesOf t) = false ->
     execArgs t = attempted os commands) /\
  (forall pre args output e post,
     t = (pre ++ Exec args output (Some e) :: post)%list ->
     o = Exit 1 /\ post = [LogFatal (failureText args e output)]).

(** The printer [Escpos.main] gets from [selectPrinter] in a run, if the
    run comes to that. *)
Definition selects (fuel : nat) (os : OS) (selectedPrinter : string) : Prop :=
  exists matches,
    euid os = 0 /\
    globResult os "/dev/usb/lp*" = Ok matches /\
    fst (Escpos.selectPrinter fuel (EscposTrace.discovered os matches) os
           {| trace := EscposTrace.greeting ++ EscposTrace.discovery os matches;
              nscan := 0 |}) = Done (Ok selectedPrinter).

(** The claim as the specification words it: whatever the input, the
    prompt completes after a single [Scanln]. *)
Definition readsOneInteger (printers : list string) (os : OS) : Prop :=
  exists fuel r s,
    Escpos.selectPrinter fuel printers os initial = (Done r, s) /\ nscan s = 1%nat.

(** The claim as the specification words it: each of the two unit file
    contents is a template instantiated at run time. *)
Definition bothContentsInstantiated : Prop :=
  variesBetweenRuns escposTrace Escpos.socketFilePath /\
  variesBetweenRuns escposTrace Escpos.serviceFilePath.

(** *** Further observations *)

Definition isFatal (e : Event) : bool :=
  match e with LogFatal _ => true | _ => false end.

(** Events of device discovery. *)
Definition isDiscovery (e : Event) : bool :=
  match e with Glob _ | Stat _ => true | _ => false end.

(** Among the next [fuel] inputs from position [start] on, how many are
    rejected before the first one [selectPrinter] accepts, if any is. *)
Fixpoint firstAccepted (printers : list string) (os : OS) (start fuel : nat) : option nat :=
  match fuel with
  | O => None
  | S fuel' =>
      if accepted printers (scanResult os start) then Some O
      else option_map S (firstAccepted printers os (S start) fuel')
  end.

(** A text without line feed. *)
Fixpoint noLF (s : string) : bool :=
  match s with
  | EmptyString => true
  | String c rest => negb (Ascii.eqb c (ascii_of_nat 10)) && noLF rest
  end.

(** The test machine when the glob call fails. *)
Definition globFailsOS : OS := {|
  euid := 0;
  globResult := fun _ => Err "syntax error in pattern";
  statResult := statResult demoOS;
  scanResult := scanResult demoOS;
  writeResult := writeResult demoOS;
  commandResult := commandResult demoOS
|}.

(** The test machine when the service unit cannot be written. *)
Definition serviceWriteFailsOS : OS := {|
  euid := 0;
  globResult := globResult demoOS;
  statResult := statResult demoOS;
  scanResult := scanResult demoOS;
  writeResult := fun name _ _ =>
    if String.eqb name "/etc/systemd/system/escpos-printer@.service"
    then Some "permission denied" else None;
  commandResult := commandResult demoOS
|}.

(** The five ways a run of [Escpos.main] can go, with its outcome and
    final state. *)
Inductive EscposRun (fuel : nat) (os : OS) : Outcome unit -> State -> Prop :=
| RunRefused :
    euid os <> 0 ->
    EscposRun fuel os (Exit 1) {| trace := EscposTrace.refused; nscan := 0 |}
| RunGlobError (e : error) :
    euid os = 0 ->
    globResult os "/dev/usb/lp*" = Err e ->
    EscposRun fuel os (Exit 1)
      {| trace := EscposTrace.greeting ++
           [Glob "/dev/usb/lp*";
            LogFatal ("Error: error al buscar impresoras: " ++ e)];
         nscan := 0 |}
| RunNoPrinter (matches : list string) :
    euid os = 0 ->
    globResult os "/dev/usb/lp*" = Ok matches ->
    EscposTrace.discovered os matches = [] ->
    EscposRun fuel os (Exit 1)
      {| trace := (EscposTrace.greeting ++ EscposTrace.discovery os matches)
           ++ [LogFatal ("Error: " ++ noPrintersText)];
         nscan := 0 |}
| RunWaiting (matches : list string) :
    euid os = 0 ->
    globResult os "/dev/usb/lp*" = Ok matches ->
    EscposTrace.discovered os matches <> [] ->
    firstAccepted (EscposTrace.discovered os matches) os 0 fuel = None ->
    EscposRun fuel os OutOfFuel
      {| trace := (EscposTrace.greeting ++ EscposTrace.discovery os matches)
           ++ Stdout headerText
           :: numberedFrom 1 (EscposTrace.discovered os matches)
           ++ rejections os 0 fuel;
         nscan := fuel |}
| RunSelected (matches : list string) (n : nat) (k : Z) (selectedPrinter : string) :
    euid os = 0 ->
    globResult os "/dev/usb/lp*" = Ok matches ->
    firstAccepted (EscposTrace.discovered os matches) os 0 fuel = Some n ->
    scanResult os n = ScanOk k ->
    1 <= k <= len (EscposTrace.discovered os matches) ->
    nth_error (EscposTrace.discovered os matches) (Z.to_nat (k - 1))
      = Some selectedPrinter ->
    EscposRun fuel os (provisionOutcome (EscposTrace.script selectedPrinter) os)
      {| trace := (EscposTrace.greeting ++ EscposTrace.discovery os matches)
           ++ (Stdout headerText
                 :: numberedFrom 1 (EscposTrace.discovered os matches)
                 ++ rejections os 0 n
                 ++ [Stdout promptText; Scanln (ScanOk k)])
           ++ EscposTrace.selectedLine selectedPrinter
           :: provisionEvents (EscposTrace.script selectedPrinter) os;
         nscan := S n |}.

(** The events of one command that succeeds. *)
Definition commandSucceeded (x : Script) (os : OS) (c : list string) : list Event :=
  [Stdout (announce x c); Exec c (fst (commandResult os c)) None; Stdout (success x)].

(** The writes of a run that reaches the first write, as the operating
    system answers: the socket unit with mode 0644, and then the service
    unit if the socket write returned no error. *)
Definition unitFileWrites (os : OS)
    (socketName socketData serviceName serviceData : string) : list Event :=
  WriteFile socketName socketData 420 (writeResult os socketName socketData 420) ::
  match writeResult os socketName socketData 420 with
  | Some _ => []
  | None =>
      [WriteFile serviceName serviceData 420 (writeResult os serviceName serviceData 420)]
  end.

(** ** Facts on strings *)

Lemma append_nil_r (s : string) : s ++ "" = s.
Proof. induction s as [|c s IH]; simpl; congruence. Qed.

Lemma append_assoc (a b c : string) : (a ++ b) ++ c = a ++ (b ++ c).
Proof. induction a as [|x a IH]; simpl; congruence. Qed.

Lemma length_append (a b : string) :
  String.length (a ++ b) = (String.length a + String.length b)%nat.
Proof. induction a as [|x a IH]; simpl; congruence. Qed.

Lemma append_inv_head (a b c : string) : a ++ b = a ++ c -> b = c.
Proof. induction a as [|x a IH]; simpl; intros H; [assumption|]. injection H. exact IH. Qed.

Lemma append_inv_tail (a b c : string) : a ++ c = b ++ c -> a = b.
Proof.
  revert b. induction a as [|x a IH]; intros [|y b] H; simpl in H.
  - reflexivity.
  - apply (f_equal String.length) in H. simpl in H. rewrite length_append in H. lia.
  - apply (f_equal String.length) in H. simpl in H. rewrite length_append in H. lia.
  - injection H as -> H. f_equal. now apply IH.
Qed.

(** What the formatting functions print for the programs' format strings. *)

Lemma Errorf_glob (e : error) :
  Errorf "error al buscar impresoras: %w" [AStr e] = "error al buscar impresoras: " ++ e.
Proof. cbn. now rewrite append_nil_r. Qed.

Lemma serviceFileContent_eq (printerPath : string) :
  Escpos.serviceFileContent printerPath =
    rawLines ["[Unit]"; "Description=ESC/POS Printer Service"; ""; "[Service]"]
      ++ "ExecStart=-/usr/bin/tee /dev/null > " ++ printerPath
      ++ LF ++ "StandardInput=socket" ++ LF.
Proof. reflexivity. Qed.

(** ** The monad's equations *)

Lemma record_record s evs evs' : record (record s evs) evs' = record s (evs ++ evs').
Proof. unfold record; simpl. now rewrite <- app_assoc. Qed.

Lemma record_nil s : record s [] = s.
Proof. destruct s; unfold record; simpl. now rewrite app_nil_r. Qed.

(** ** Device discovery *)

Lemma charDevice_test (mode : Z) :
  negb (Z.land mode ModeCharDevice =? 0) = Z.testbit mode 21.
Proof.
  unfold ModeCharDevice.
  destruct (Z.testbit mode 21) eqn:Hb.
  - apply negb_true_iff, Z.eqb_neq. intros H0.
    assert (Hc : Z.testbit (Z.land mode (Z.shiftl 1 21)) 21 = true).
    { rewrite Z.land_spec, Hb. reflexivity. }
    rewrite H0, Z.bits_0 in Hc. discriminate.
  - apply negb_false_iff, Z.eqb_eq. apply Z.bits_inj'. intros n Hn.
    rewrite Z.land_spec, Z.bits_0.
    destruct (Z.eq_dec n 21) as [->|Hne].
    + rewrite Hb. reflexivity.
    + replace (Z.testbit (Z.shiftl 1 21) n) with false; [apply andb_false_r|].
      symmetry. rewrite Z.shiftl_1_l. apply Z.pow2_bits_false. congruence.
Qed.

Lemma findPrinters_range_run (matches printers : list string) os s :
  Escpos.findPrinters_range matches printers os s =
    (Done (printers ++ filter (charDeviceAt os) matches)%list,
     record s (map Stat matches)).
Proof.
  revert printers s. induction matches as [|m rest IH]; intros printers s.
  - simpl. unfold ret. now rewrite app_nil_r, record_nil.
  - simpl. unfold bind, os_Stat. unfold charDeviceAt at 1.
    destruct (statResult os m) as [info|e].
    + rewrite charDevice_test. destruct (Z.testbit (Mode info) 21).
      * rewrite IH, record_record, <- app_assoc. reflexivity.
      * rewrite IH, record_record. reflexivity.
    + rewrite IH, record_record. reflexivity.
Qed.

Lemma findPrinters_run os s :
  Escpos.findPrinters os s =
    match globResult os "/dev/usb/lp*" with
    | Ok matches =>
        (Done (Ok (filter (charDeviceAt os) matches)),
         record s (Glob "/dev/usb/lp*" :: map Stat matches))
    | Err e =>
        (Done (Err ("error al buscar impresoras: " ++ e)),
         record s [Glob "/dev/usb/lp*"])
    end.
Proof.
  unfold Escpos.findPrinters, bind, filepath_Glob.
  destruct (globResult os "/dev/usb/lp*") as [matches|e].
  - rewrite findPrinters_range_run, record_record. reflexivity.
  - unfold ret. now rewrite Errorf_glob.
Qed.

(** ** The selection prompt *)


Lemma numbered_run (printers : list string) (i : Z) os s :
  rangeFrom i printers
    (fun i p => fmt_Printf ("%d. %s" ++ LF) [AInt (i + 1); AStr p]) os s =
    (Done tt, record s (numberedFrom (i + 1) printers)).
Proof.
  revert i s. induction printers as [|p rest IH]; intros i s; simpl.
  - unfold ret. now rewrite record_nil.
  - unfold bind, fmt_Printf, emit. rewrite IH, record_record. reflexivity.
Qed.

Lemma loop_rejected (fuel : nat) (printers : list string) (choice : Z) os s :
  accepted printers (scanResult os (nscan s)) = false ->
  exists choice',
    Escpos.selectPrinter_loop (S fuel) printers choice os s =
    Escpos.selectPrinter_loop fuel printers choice' os
      {| trace := trace s ++ rejections os (nscan s) 1; nscan := S (nscan s) |}.
Proof.
  intros Hrej. simpl. unfold bind, fmt_Print, fmt_Println, fmt_Scanln, emit, record.
  simpl. destruct (scanResult os (nscan s)) as [n|[n|] e]; simpl in *.
  - exists n.
    replace ((n <? 1) || (n >? len printers)) with true.
    + simpl. rewrite <- !app_assoc. reflexivity.
    + symmetry. apply andb_false_iff in Hrej. apply orb_true_iff.
      destruct Hrej as [H|H]; [left|right]; lia.
  - exists n. rewrite <- !app_assoc. reflexivity.
  - exists choice. rewrite <- !app_assoc. reflexivity.
Qed.

Lemma loop_accepted (fuel : nat) (printers : list string) (choice k : Z) os s :
  scanResult os (nscan s) = ScanOk k ->
  accepted printers (ScanOk k) = true ->
  Escpos.selectPrinter_loop (S fuel) printers choice os s =
    (Done k,
     {| trace := trace s ++ [Stdout promptText; Scanln (ScanOk k)];
        nscan := S (nscan s) |}).
Proof.
  intros Hscan Hacc. simpl. unfold bind, fmt_Print, fmt_Scanln, emit, record. simpl.
  rewrite Hscan. simpl in *. apply andb_true_iff in Hacc.
  replace ((k <? 1) || (k >? len printers)) with false.
  - unfold ret. now rewrite <- app_assoc.
  - symmetry. apply orb_false_iff. split; lia.
Qed.

(** The loop ends at the first accepted input, after the rejected ones. *)
Lemma loop_run (printers : list string) (k : Z) os (n : nat) :
  forall fuel choice s,
    (forall j, (j < n)%nat -> accepted printers (scanResult os (nscan s + j)) = false) ->
    scanResult os (nscan s + n) = ScanOk k ->
    accepted printers (ScanOk k) = true ->
    (n < fuel)%nat ->
    Escpos.selectPrinter_loop fuel printers choice os s =
      (Done k,
       {| trace := trace s ++ rejections os (nscan s) n
                     ++ [Stdout promptText; Scanln (ScanOk k)];
          nscan := S (nscan s + n) |}).
Proof.
  induction n as [|n IH]; intros fuel choice s Hrej Hscan Hacc Hfuel.
  - destruct fuel as [|fuel]; [lia|]. rewrite Nat.add_0_r in *.
    now apply loop_accepted.
  - destruct fuel as [|fuel]; [lia|].
    destruct (loop_rejected fuel printers choice os s) as [choice' ->].
    { specialize (Hrej 0%nat). rewrite Nat.add_0_r in Hrej. apply Hrej. lia. }
    rewrite IH; simpl nscan; simpl trace.
    + rewrite <- !app_assoc. simpl. now rewrite <- plus_n_Sm.
    + intros j Hj. specialize (Hrej (S j)). rewrite <- plus_n_Sm in Hrej.
      apply Hrej. lia.
    + now rewrite <- plus_n_Sm in Hscan.
    + exact Hacc.
    + lia.
Qed.

(** Without an accepted input the loop goes on for ever. *)
Lemma loop_spins (printers : list string) os (fuel : nat) :
  forall choice s,
    (forall j, accepted printers (scanResult os (nscan s + j)) = false) ->
    fst (Escpos.selectPrinter_loop fuel printers choice os s) = OutOfFuel.
Proof.
  induction fuel as [|fuel IH]; intros choice s Hrej.
  - reflexivity.
  - destruct (loop_rejected fuel printers choice os s) as [choice' ->].
    { specialize (Hrej 0%nat). now rewrite Nat.add_0_r in Hrej. }
    apply IH. simpl. intros j. specialize (Hrej (S j)).
    now rewrite <- plus_n_Sm in Hrej.
Qed.

(** Whatever the input, the loop only prompts and reads, and a value it
    returns is a valid 1-based position in the list. *)
Lemma loop_quiet (printers : list string) os (fuel : nat) :
  forall choice s,
  exists o evs n,
    Escpos.selectPrinter_loop fuel printers choice os s =
      (o, {| trace := trace s ++ evs; nscan := n |}) /\
    forallb quiet evs = true /\
    match o with
    | Done k => 1 <= k <= len printers
    | OutOfFuel => True
    | _ => False
    end.
Proof.
  induction fuel as [|fuel IH]; intros choice s.
  - exists OutOfFuel, [], (nscan s). simpl. unfold outOfFuel.
    rewrite app_nil_r. destruct s; auto.
  - destruct (accepted printers (scanResult os (nscan s))) eqn:Hacc.
    + destruct (scanResult os (nscan s)) as [k|] eqn:Hscan; [|discriminate].
      exists (Done k), [Stdout promptText; Scanln (ScanOk k)], (S (nscan s)).
      rewrite (loop_accepted fuel printers choice k os s Hscan Hacc).
      repeat split; simpl in Hacc; lia.
    + destruct (loop_rejected fuel printers choice os s Hacc) as [choice' ->].
      destruct (IH choice' {| trace := trace s ++ rejections os (nscan s) 1;
                               nscan := S (nscan s) |}) as (o & evs & n & Hrun & Hq & Ho).
      exists o, (rejections os (nscan s) 1 ++ evs)%list, n.
      rewrite Hrun. simpl. rewrite <- !app_assoc. simpl. auto.
Qed.

Lemma index_run (printers : list string) (k : Z) os s :
  1 <= k <= len printers ->
  exists p,
    nth_error printers (Z.to_nat (k - 1)) = Some p /\
    index printers (k - 1) os s = (Done p, s).
Proof.
  intros Hk. unfold index, len in *.
  replace ((k - 1 <? 0) || (Z.of_nat (List.length printers) <=? k - 1)) with false
    by (symmetry; apply orb_false_iff; split; lia).
  destruct (nth_error printers (Z.to_nat (k - 1))) as [p|] eqn:Hnth.
  - exists p. split; [reflexivity|]. unfold ret.
    now rewrite (nth_error_nth _ _ _ Hnth).
  - apply nth_error_None in Hnth. lia.
Qed.

Lemma selectPrinter_empty (fuel : nat) os s :
  Escpos.selectPrinter fuel [] os s = (Done (Err noPrintersText), s).
Proof. reflexivity. Qed.

Lemma selectPrinter_nonempty (fuel : nat) (printers : list string) os s :
  printers <> [] ->
  Escpos.selectPrinter fuel printers os s =
    (choice <- Escpos.selectPrinter_loop fuel printers 0;;
     p <- index printers (choice - 1);;
     ret (Ok p)) os (record s (Stdout headerText :: numberedFrom 1 printers)).
Proof.
  intros Hne. unfold Escpos.selectPrinter.
  destruct printers as [|p0 rest]; [congruence|].
  replace (len (p0 :: rest) =? 0) with false
    by (symmetry; apply Z.eqb_neq; unfold len; simpl; lia).
  unfold forRange.
  unfold bind at 1. unfold fmt_Println at 1, emit at 1.
  unfold bind at 1. rewrite numbered_run, record_record. reflexivity.
Qed.

(** [selectPrinter] neither writes a file nor runs a command, and what it
    returns without error is a printer of the list. *)
Lemma selectPrinter_quiet (fuel : nat) (printers : list string) os s :
  exists o evs n,
    Escpos.selectPrinter fuel printers os s =
      (o, {| trace := trace s ++ evs; nscan := n |}) /\
    forallb quiet evs = true /\
    match o with
    | Done (Ok p) => In p printers
    | Done (Err _) => printers = [] /\ evs = []
    | OutOfFuel => True
    | _ => False
    end.
Proof.
  destruct printers as [|p0 rest] eqn:Hp.
  - exists (Done (Err noPrintersText)), [], (nscan s).
    rewrite selectPrinter_empty, app_nil_r. destruct s; auto.
  - rewrite <- Hp. assert (Hne : printers <> []) by congruence.
    rewrite (selectPrinter_nonempty fuel printers os s Hne).
    set (s1 := record s (Stdout headerText :: numberedFrom 1 printers)).
    destruct (loop_quiet printers os fuel 0 s1) as (o & evs & n & Hrun & Hq & Ho).
    assert (Hnum : forall i l, forallb quiet (numberedFrom i l) = true).
    { intros i l. revert i. induction l; intros i; simpl; auto. }
    destruct o as [k| | |]; try contradiction.
    + destruct (index_run printers k os {| trace := trace s1 ++ evs; nscan := n |} Ho)
        as (p & Hnth & Hidx).
      exists (Done (Ok p)), (Stdout headerText :: numberedFrom 1 printers ++ evs)%list, n.
      unfold bind. rewrite Hrun, Hidx. unfold ret, s1. simpl.
      rewrite <- app_assoc. simpl. rewrite forallb_app, Hnum, Hq.
      repeat split. eapply nth_error_In; eauto.
    + exists OutOfFuel, (Stdout headerText :: numberedFrom 1 printers ++ evs)%list, n.
      unfold bind. rewrite Hrun. unfold s1. simpl.
      rewrite <- app_assoc. simpl. rewrite forallb_app, Hnum, Hq. auto.
Qed.

(** ** The loop over the commands *)

Section CommandLoop.

Variable runCommand : list string -> M unit.
Variable announce : list string -> string.
Variable success : string.
Variable failure : list string -> error -> string -> string.

Hypothesis runCommand_run : forall c os s,
  c <> [] ->
  runCommand c os s =
    match commandResult os c with
    | (output, None) =>
        (Done tt, record s [Stdout (announce c); Exec c output None; Stdout success])
    | (output, Some e) =>
        (Exit 1, record s [Stdout (announce c); Exec c output (Some e);
                           LogFatal (failure c e output)])
    end.

Lemma commands_run (cmds : list (list string)) : forall i os s,
  Forall (fun c => c <> []) cmds ->
  rangeFrom i cmds (fun _ cmdArgs => runCommand cmdArgs) os s =
    (if allSucceed os cmds then Done tt else Exit 1,
     record s (commandEvents announce success failure os cmds)).
Proof.
  induction cmds as [|c rest IH]; intros i os s Hne; simpl.
  - unfold ret. now rewrite record_nil.
  - inversion Hne as [|? ? Hc Hrest]; subst.
    unfold bind. rewrite (runCommand_run c os s Hc).
    destruct (commandResult os c) as [output [e|]]; simpl.
    + reflexivity.
    + rewrite IH by assumption. now rewrite record_record.
Qed.

Lemma commandEvents_no_write os cmds :
  writesOf (commandEvents announce success failure os cmds) = [].
Proof.
  induction cmds as [|c rest IH]; simpl; [reflexivity|].
  destruct (commandResult os c) as [output [e|]]; simpl; auto.
Qed.

Lemma commandEvents_args os cmds :
  execArgs (commandEvents announce success failure os cmds) = attempted os cmds.
Proof.
  induction cmds as [|c rest IH]; simpl; [reflexivity|].
  destruct (commandResult os c) as [output [e|]]; simpl; [reflexivity|].
  now rewrite IH.
Qed.

(** A failing command is the last one run: only the fatal log line, with
    the error and the command's output, comes after it. *)
Lemma commandEvents_failure os cmds : forall pre args output e post,
  commandEvents announce success failure os cmds
    = (pre ++ Exec args output (Some e) :: post)%list ->
  post = [LogFatal (failure args e output)] /\ allSucceed os cmds = false.
Proof.
  induction cmds as [|c rest IH]; intros pre args output e post H; simpl in H.
  - destruct pre; discriminate.
  - unfold allSucceed. simpl.
    destruct (commandResult os c) as [out [e'|]]; simpl in *.
    + destruct pre as [|x [|y [|z pre]]]; simpl in H; try discriminate.
      * injection H as <- <- <- <-. auto.
      * injection H as _ _ H. destruct pre; discriminate.
    + destruct pre as [|x [|y [|z pre]]]; simpl in H; try discriminate.
      injection H as _ _ _ H. apply IH in H. exact H.
Qed.

End CommandLoop.

Lemma attempted_prefix os cmds :
  exists k, attempted os cmds = firstn k cmds.
Proof.
  induction cmds as [|c rest [k IH]]; simpl.
  - exists 0%nat. reflexivity.
  - destruct (isNil (snd (commandResult os c))).
    + exists (S k). simpl. now rewrite IH.
    + exists 1%nat. reflexivity.
Qed.

Lemma attempted_all os cmds :
  allSucceed os cmds = true -> attempted os cmds = cmds.
Proof.
  unfold allSucceed. induction cmds as [|c rest IH]; simpl; [reflexivity|].
  intros H. apply andb_true_iff in H. destruct H as [Hc Hrest].
  rewrite Hc. now rewrite IH.
Qed.

(** ** The installers, phase by phase *)

Lemma escpos_runCommand_run (c : list string) os s :
  c <> [] ->
  Escpos.runCommand c os s =
    match commandResult os c with
    | (output, None) =>
        (Done tt, record s [Stdout (EscposTrace.announceText c); Exec c output None;
                            Stdout EscposTrace.successText])
    | (output, Some e) =>
        (Exit 1, record s [Stdout (EscposTrace.announceText c); Exec c output (Some e);
                           LogFatal (EscposTrace.failureText c e output)])
    end.
Proof.
  intros Hc. destruct c as [|name args]; [congruence|].
  unfold Escpos.runCommand, bind, fmt_Printf, CombinedOutput, log_Fatalf, emit, os_Exit, bind.
  destruct (commandResult os (name :: args)) as [output [e|]].
  - rewrite !record_record. simpl app. unfold EscposTrace.failureText.
    do 4 f_equal. cbn. now rewrite append_nil_r.
  - rewrite !record_record. reflexivity.
Qed.

Lemma epson_runCommand_run (c : list string) os s :
  c <> [] ->
  Epson.runCommand c os s =
    match commandResult os c with
    | (output, None) =>
        (Done tt, record s [Stdout (EpsonTrace.announceText c); Exec c output None;
                            Stdout EpsonTrace.successText])
    | (output, Some e) =>
        (Exit 1, record s [Stdout (EpsonTrace.announceText c); Exec c output (Some e);
                           LogFatal (EpsonTrace.failureText c e output)])
    end.
Proof.
  intros Hc. destruct c as [|name args]; [congruence|].
  unfold Epson.runCommand, bind, fmt_Printf, CombinedOutput, log_Fatalf, emit, os_Exit, bind.
  destruct (commandResult os (name :: args)) as [output [e|]].
  - rewrite !record_record. simpl app. unfold EpsonTrace.failureText.
    do 4 f_equal. cbn. now rewrite append_nil_r.
  - rewrite !record_record. reflexivity.
Qed.

Lemma systemctl_nonempty name : Forall (fun c : list string => c <> []) (systemctlCommands name).
Proof. repeat constructor; discriminate. Qed.

Lemma escpos_commands : Escpos.commands = systemctlCommands "escpos-printer".
Proof. reflexivity. Qed.

Lemma epson_commands : Epson.commands = systemctlCommands "epson-printer".
Proof. reflexivity. Qed.

(** One write of a unit file and the test of its error, in either program. *)
Ltac run_write x os :=
  unfold bind at 1; unfold os_WriteFile at 1;
  match goal with
  | |- context [writeResult os ?name ?data perm0644] =>
      let e := fresh "e" in
      let Hw := fresh "Hw" in
      destruct (writeResult os name data perm0644) as [e|] eqn:Hw;
      [ unfold bind, log_Fatalf, emit, os_Exit, bind; rewrite !record_record;
        unfold provisionOutcome, provisionEvents, writePhase, writesSucceed,
          socketWrite, serviceWrite;
        cbn [socketPath socketData servicePath serviceData EpsonTrace.script
             EscposTrace.script];
        repeat match goal with
               | H : writeResult os _ _ _ = _ |- _ => rewrite H; clear H
               end;
        cbn; rewrite ?append_nil_r; reflexivity
      | unfold bind at 1; unfold ret at 1;
        unfold bind at 1; unfold fmt_Printf at 1, emit at 1 ]
  end.

Lemma println_each_run (printers : list string) : forall i os s,
  rangeFrom i printers (fun _ printer => fmt_Println [AStr printer]) os s =
    (Done tt, record s (map (fun p => Stdout (p ++ LF)) printers)).
Proof.
  induction printers as [|p rest IH]; intros i os s; simpl.
  - unfold ret. now rewrite record_nil.
  - unfold bind, fmt_Println, emit. rewrite IH, record_record. reflexivity.
Qed.

(** The run of [Epson.main], one case per way it can go. *)
Lemma epson_main_run os :
  run Epson.main os =
    if negb (euid os =? 0)
    then (Exit 1, {| trace := EpsonTrace.refused; nscan := 0 |})
    else (provisionOutcome EpsonTrace.script os,
          {| trace := EpsonTrace.greeting ++ provisionEvents EpsonTrace.script os;
             nscan := 0 |}).
Proof.
  unfold run, Epson.main.
  unfold bind at 1. unfold fmt_Println at 1, emit at 1.
  unfold bind at 1. unfold os_Geteuid at 1.
  unfold bind at 1.
  destruct (negb (euid os =? 0)).
  { reflexivity. }
  unfold ret at 1.
  unfold bind at 1. unfold fmt_Println at 1, emit at 1.
  run_write EpsonTrace.script os.
  run_write EpsonTrace.script os.
  unfold bind at 1. unfold forRange.
  rewrite (commands_run Epson.runCommand EpsonTrace.announceText EpsonTrace.successText
             EpsonTrace.failureText epson_runCommand_run Epson.commands 0 os _
             (systemctl_nonempty "epson-printer")).
  unfold provisionOutcome, provisionEvents, writePhase, writesSucceed, commandPhase,
    socketWrite, serviceWrite.
  cbn [socketPath socketData servicePath serviceData cmds announce success failure farewell
       EpsonTrace.script].
  rewrite Hw, Hw0. cbn [isNil andb].
  destruct (allSucceed os Epson.commands).
  - unfold bind, fmt_Println, emit. rewrite !record_record. reflexivity.
  - rewrite !record_record, app_nil_r. reflexivity.
Qed.

(** The run of [Escpos.main], one case per way it can go. *)
Lemma escpos_main_run (fuel : nat) os :
  run (Escpos.main fuel) os =
    if negb (euid os =? 0)
    then (Exit 1, {| trace := EscposTrace.refused; nscan := 0 |})
    else
      match globResult os "/dev/usb/lp*" with
      | Err e =>
          (Exit 1,
           {| trace := EscposTrace.greeting ++
                [Glob "/dev/usb/lp*";
                 LogFatal ("Error: error al buscar impresoras: " ++ e)];
              nscan := 0 |})
      | Ok matches =>
          match Escpos.selectPrinter fuel (EscposTrace.discovered os matches) os
                  {| trace := EscposTrace.greeting ++ EscposTrace.discovery os matches;
                     nscan := 0 |} with
          | (Done (Ok selectedPrinter), s) =>
              (provisionOutcome (EscposTrace.script selectedPrinter) os,
               record s (EscposTrace.selectedLine selectedPrinter
                           :: provisionEvents (EscposTrace.script selectedPrinter) os))
          | (Done (Err e), s) => (Exit 1, record s [LogFatal ("Error: " ++ e)])
          | (Exit c, s) => (Exit c, s)
          | (Panic msg, s) => (Panic msg, s)
          | (OutOfFuel, s) => (OutOfFuel, s)
          end
      end.
Proof.
  unfold run, Escpos.main.
  unfold bind at 1. unfold fmt_Println at 1, emit at 1.
  unfold bind at 1. unfold os_Geteuid at 1.
  unfold bind at 1.
  destruct (negb (euid os =? 0)).
  { reflexivity. }
  unfold ret at 1.
  unfold bind at 1. unfold fmt_Println at 1, emit at 1.
  unfold bind at 1. rewrite findPrinters_run.
  destruct (globResult os "/dev/usb/lp*") as [matches|e].
  2:{ unfold log_Fatalf, bind, emit, os_Exit. rewrite !record_record.
      unfold record. cbn. now rewrite append_nil_r. }
  unfold bind at 1. unfold fmt_Println at 1, emit at 1.
  unfold bind at 1. unfold forRange. rewrite println_each_run.
  unfold bind at 1.
  match goal with
  | |- context [Escpos.selectPrinter fuel ?ps os ?s0] =>
      replace s0 with {| trace := EscposTrace.greeting ++ EscposTrace.discovery os matches;
                         nscan := 0 |}
        by (unfold record, EscposTrace.discovery; simpl; rewrite <- ?app_assoc; reflexivity);
      change ps with (EscposTrace.discovered os matches)
  end.
  destruct (Escpos.selectPrinter fuel (EscposTrace.discovered os matches) os _)
    as [[[selectedPrinter|e]| | |] s]; try reflexivity.
  2:{ unfold log_Fatalf, bind, emit, os_Exit. cbn. now rewrite append_nil_r. }
  unfold bind at 1. unfold fmt_Printf at 1, emit at 1.
  run_write (EscposTrace.script selectedPrinter) os.
  run_write (EscposTrace.script selectedPrinter) os.
  unfold bind at 1. unfold forRange.
  rewrite (commands_run Escpos.runCommand EscposTrace.announceText EscposTrace.successText
             EscposTrace.failureText escpos_runCommand_run Escpos.commands 0 os _
             (systemctl_nonempty "escpos-printer")).
  unfold provisionOutcome, provisionEvents, writePhase, writesSucceed, commandPhase,
    socketWrite, serviceWrite.
  cbn [socketPath socketData servicePath serviceData cmds announce success failure farewell
       EscposTrace.script].
  rewrite Hw, Hw0. cbn [isNil andb].
  destruct (allSucceed os Escpos.commands).
  - unfold bind, fmt_Println, emit. rewrite !record_record. reflexivity.
  - rewrite !record_record, app_nil_r. reflexivity.
Qed.

(** ** Facts on traces *)

Lemma writeNames_app t t' : writeNames (t ++ t') = (writeNames t ++ writeNames t')%list.
Proof. apply flat_map_app. Qed.

Lemma execArgs_app t t' : execArgs (t ++ t') = (execArgs t ++ execArgs t')%list.
Proof. apply flat_map_app. Qed.

Lemma writesOf_app t t' : writesOf (t ++ t') = (writesOf t ++ writesOf t')%list.
Proof. apply filter_app. Qed.

Lemma execsOf_app t t' : execsOf (t ++ t') = (execsOf t ++ execsOf t')%list.
Proof. apply filter_app. Qed.

Lemma quiet_writesOf t : forallb quiet t = true -> writesOf t = [].
Proof.
  induction t as [|e t IH]; simpl; [reflexivity|]. intros H.
  apply andb_true_iff in H. destruct H as [He Ht].
  destruct e; simpl in *; try discriminate; auto.
Qed.

Lemma quiet_execsOf t : forallb quiet t = true -> execsOf t = [].
Proof.
  induction t as [|e t IH]; simpl; [reflexivity|]. intros H.
  apply andb_true_iff in H. destruct H as [He Ht].
  destruct e; simpl in *; try discriminate; auto.
Qed.

Lemma writesOf_names t : writesOf t = [] -> writeNames t = [].
Proof.
  induction t as [|e t IH]; simpl; [reflexivity|].
  destruct e; simpl; try discriminate; auto.
Qed.

Lemma execsOf_args t : execsOf t = [] -> execArgs t = [].
Proof.
  induction t as [|e t IH]; simpl; [reflexivity|].
  destruct e; simpl; try discriminate; auto.
Qed.

Lemma execsOf_no_member t e : execsOf t = [] -> In e t -> isExec e = false.
Proof.
  unfold execsOf. intros H Hin. destruct (isExec e) eqn:He; [|reflexivity].
  assert (Hf : In e (filter isExec t)) by (apply filter_In; auto).
  rewrite H in Hf. contradiction.
Qed.

(** Where an element stands in a concatenation when the first part holds
    nothing like it. *)
Lemma split_after {A} (P : A -> bool) (l1 l2 pre : list A) (e : A) (post : list A) :
  (forall x, In x l1 -> P x = false) ->
  P e = true ->
  (l1 ++ l2 = pre ++ e :: post)%list ->
  exists pre', pre = (l1 ++ pre')%list /\ l2 = (pre' ++ e :: post)%list.
Proof.
  revert pre. induction l1 as [|a l1 IH]; intros pre Hno He H; simpl in *.
  - exists pre. auto.
  - destruct pre as [|b pre]; simpl in H; injection H as -> H.
    + rewrite (Hno e) in He by auto. discriminate.
    + destruct (IH pre) as (pre' & -> & ->); auto.
      exists pre'. auto.
Qed.

(** The same when the second part holds nothing like it. *)
Lemma split_before {A} (P : A -> bool) (l1 l2 pre : list A) (e : A) (post : list A) :
  (forall x, In x l2 -> P x = false) ->
  P e = true ->
  (l1 ++ l2 = pre ++ e :: post)%list ->
  exists post', l1 = (pre ++ e :: post')%list /\ post = (post' ++ l2)%list.
Proof.
  revert pre. induction l1 as [|a l1 IH]; intros pre Hno He H; simpl in *.
  - rewrite (Hno e) in He; [discriminate|]. rewrite H. apply in_elt.
  - destruct pre as [|b pre]; simpl in H; injection H as -> H.
    + exists l1. auto.
    + destruct (IH pre Hno He H) as (post' & -> & ->).
      exists post'. auto.
Qed.

(** ** The run from the first write on *)

Section Provision.

Variable x : Script.
Variable os : OS.

Lemma commandPhase_no_write : writesOf (commandPhase x os) = [].
Proof.
  unfold commandPhase. rewrite writesOf_app, commandEvents_no_write.
  destruct (allSucceed os (cmds x)); [|reflexivity].
  simpl. induction (farewell x); simpl; auto.
Qed.

Lemma farewell_no_exec : forall e,
  In e (if allSucceed os (cmds x) then map Stdout (farewell x) else []) -> isExec e = false.
Proof.
  intros e. destruct (allSucceed os (cmds x)); [|contradiction].
  intros H. apply in_map_iff in H. destruct H as (text & <- & _). reflexivity.
Qed.

Lemma commandPhase_args : execArgs (commandPhase x os) = attempted os (cmds x).
Proof.
  unfold commandPhase. rewrite execArgs_app, commandEvents_args.
  replace (execArgs _) with (@nil (list string)); [apply app_nil_r|].
  symmetry. apply execsOf_args.
  destruct (allSucceed os (cmds x)); [|reflexivity].
  induction (farewell x); simpl; auto.
Qed.

Lemma commandPhase_failure pre args output e post :
  commandPhase x os = (pre ++ Exec args output (Some e) :: post)%list ->
  post = [LogFatal (failure x args e output)] /\ allSucceed os (cmds x) = false.
Proof.
  unfold commandPhase. intros H.
  destruct (split_before isExec _ _ pre (Exec args output (Some e)) post
              farewell_no_exec eq_refl H) as (post' & H1 & ->).
  apply commandEvents_failure in H1. destruct H1 as [-> Hall].
  rewrite Hall. auto.
Qed.

Lemma commandPhase_all_succeed :
  allSucceed os (cmds x) = true -> existsb failed (execsOf (commandPhase x os)) = false.
Proof.
  intros Hall. destruct (existsb failed (execsOf (commandPhase x os))) eqn:Hex; [|reflexivity].
  apply existsb_exists in Hex. destruct Hex as (ev & Hin & Hfail).
  apply filter_In in Hin. destruct Hin as [Hin Hexec].
  destruct ev as [| | | | | |? ? ? [e|]|args output [e|]]; try discriminate.
  apply in_split in Hin. destruct Hin as (pre & post & Heq).
  apply commandPhase_failure in Heq. destruct Heq as [_ Heq]. congruence.
Qed.

(** The three ways the write phase can go. *)
Lemma writePhase_cases :
  (exists e, socketWrite x os = Some e /\ writesSucceed x os = false /\
     writePhase x os =
       [WriteFile (socketPath x) (socketData x) perm0644 (Some e);
        LogFatal (socketFailed x e)]) \/
  (exists e, socketWrite x os = None /\ serviceWrite x os = Some e /\
     writesSucceed x os = false /\
     writePhase x os =
       [WriteFile (socketPath x) (socketData x) perm0644 None;
        Stdout (socketCreated x);
        WriteFile (servicePath x) (serviceData x) perm0644 (Some e);
        LogFatal (serviceFailed x e)]) \/
  (socketWrite x os = None /\ serviceWrite x os = None /\ writesSucceed x os = true /\
     writePhase x os =
       [WriteFile (socketPath x) (socketData x) perm0644 None;
        Stdout (socketCreated x);
        WriteFile (servicePath x) (serviceData x) perm0644 None;
        Stdout (serviceCreated x)]).
Proof.
  unfold writePhase, writesSucceed.
  destruct (socketWrite x os) as [e|].
  - left. exists e. auto.
  - destruct (serviceWrite x os) as [e|].
    + right; left. exists e. auto.
    + right; right. auto.
Qed.

Lemma writePhase_no_exec : forall e, In e (writePhase x os) -> isExec e = false.
Proof.
  intros e He.
  destruct writePhase_cases as [(e1 & _ & _ & H)|[(e1 & _ & _ & _ & H)|(_ & _ & _ & H)]];
    rewrite H in He; simpl in He;
    repeat (destruct He as [<-|He]; [reflexivity|]); contradiction.
Qed.

Lemma quiet_no_exec pre : forallb quiet pre = true -> forall e, In e pre -> isExec e = false.
Proof. intros Hq e. apply execsOf_no_member. now apply quiet_execsOf. Qed.

Lemma installs_writesBeforeCommands o t :
  Installs x os o t -> writesBeforeCommands (socketPath x) (servicePath x) o t.
Proof.
  intros (pre & Hq & -> & ->).
  pose proof (quiet_writesOf pre Hq) as Hpw.
  pose proof (quiet_execsOf pre Hq) as Hpe.
  pose proof (writesOf_names pre Hpw) as Hpn.
  unfold writesBeforeCommands, provisionEvents, provisionOutcome.
  rewrite !writeNames_app, !writesOf_app, !execsOf_app, Hpn, Hpw, Hpe, !app_nil_l.
  destruct writePhase_cases as [(e1 & _ & Hws & H)|[(e1 & _ & _ & Hws & H)|(_ & _ & Hws & H)]];
    rewrite Hws, H; simpl.
  - split; [exists 1%nat; reflexivity|]. split; [discriminate|]. split; [|auto].
    intros pre0 e post Heq He. exfalso.
    assert (Hin : In e (pre ++ writePhase x os ++ [])%list).
    { rewrite H. simpl. rewrite Heq. apply in_elt. }
    rewrite app_nil_r in Hin. apply in_app_or in Hin. destruct Hin as [Hin|Hin].
    + rewrite (quiet_no_exec pre Hq e Hin) in He. discriminate.
    + rewrite (writePhase_no_exec e Hin) in He. discriminate.
  - split; [exists 2%nat; reflexivity|]. split; [discriminate|]. split; [|auto].
    intros pre0 e post Heq He. exfalso.
    assert (Hin : In e (pre ++ writePhase x os ++ [])%list).
    { rewrite H. simpl. rewrite Heq. apply in_elt. }
    rewrite app_nil_r in Hin. apply in_app_or in Hin. destruct Hin as [Hin|Hin].
    + rewrite (quiet_no_exec pre Hq e Hin) in He. discriminate.
    + rewrite (writePhase_no_exec e Hin) in He. discriminate.
  - rewrite (writesOf_names _ commandPhase_no_write), commandPhase_no_write.
    split; [exists 2%nat; reflexivity|]. split; [reflexivity|]. split; [|discriminate].
    intros pre0 e post Heq He.
    destruct (split_after isExec _ _ _ _ _ (quiet_no_exec pre Hq) He Heq) as (pre1 & -> & Heq1).
    change (Stdout (serviceCreated x) :: commandPhase x os)
      with ([Stdout (serviceCreated x)] ++ commandPhase x os)%list in Heq1.
    rewrite !app_comm_cons in Heq1. rewrite <- H in Heq1.
    destruct (split_after isExec _ _ _ _ _ writePhase_no_exec He Heq1) as (pre2 & -> & Heq2).
    exists (socketData x), (serviceData x).
    rewrite !writesOf_app, Hpw, H. simpl.
    pose proof commandPhase_no_write as Hcw. rewrite Heq2, writesOf_app in Hcw.
    apply app_eq_nil in Hcw. destruct Hcw as [-> _]. reflexivity.
Qed.

End Provision.

Lemma no_exec_execsOf t : (forall e, In e t -> isExec e = false) -> execsOf t = [].
Proof.
  induction t as [|e t IH]; simpl; intros H; [reflexivity|].
  rewrite (H e) by auto. apply IH. intros e' He'. apply H. auto.
Qed.

Lemma installs_commandsFailFast x os o t :
  Installs x os o t -> commandsFailFast os (cmds x) (failure x) o t.
Proof.
  intros (pre & Hq & -> & ->).
  pose proof (quiet_writesOf pre Hq) as Hpw.
  pose proof (quiet_execsOf pre Hq) as Hpe.
  pose proof (execsOf_args pre Hpe) as Hpa.
  pose proof (no_exec_execsOf _ (writePhase_no_exec x os)) as Hwe.
  pose proof (execsOf_args _ Hwe) as Hwa.
  unfold commandsFailFast, provisionEvents, provisionOutcome.
  rewrite !execArgs_app, !writesOf_app, !execsOf_app, Hpa, Hpw, Hpe, Hwe, Hwa, !app_nil_l.
  repeat split.
  - destruct (writesSucceed x os).
    + rewrite commandPhase_args. apply attempted_prefix.
    + exists 0%nat. reflexivity.
  - revert H. destruct (writesSucceed x os); simpl; [|intros H; discriminate H].
    destruct (allSucceed os (cmds x)) eqn:Hall; [|intros H; discriminate H].
    intros _. rewrite commandPhase_args. now apply attempted_all.
  - revert H. destruct (writesSucceed x os); simpl; [|intros H; discriminate H].
    destruct (allSucceed os (cmds x)) eqn:Hall; [|intros H; discriminate H].
    intros _. now apply commandPhase_all_succeed.
  - intros Hlen Hfail.
    destruct (writePhase_cases x os)
      as [(e1 & _ & Hws & H)|[(e1 & _ & _ & Hws & H)|(_ & _ & Hws & H)]];
      rewrite Hws, H in *; simpl in *; try discriminate.
    apply commandPhase_args.
  - destruct (split_after isExec _ _ _ (Exec args output (Some e)) _
                (quiet_no_exec pre Hq) eq_refl H) as (pre1 & -> & H1).
    destruct (split_after isExec _ _ _ (Exec args output (Some e)) _
                (writePhase_no_exec x os) eq_refl H1) as (pre2 & -> & H2).
    destruct (writesSucceed x os); [|destruct pre2; discriminate].
    apply commandPhase_failure in H2. destruct H2 as [_ ->]. reflexivity.
  - destruct (split_after isExec _ _ _ (Exec args output (Some e)) _
                (quiet_no_exec pre Hq) eq_refl H) as (pre1 & -> & H1).
    destruct (split_after isExec _ _ _ (Exec args output (Some e)) _
                (writePhase_no_exec x os) eq_refl H1) as (pre2 & -> & H2).
    destruct (writesSucceed x os); [|destruct pre2; discriminate].
    apply commandPhase_failure in H2. apply H2.
Qed.

Lemma stops_writesBeforeCommands socketName serviceName o t :
  Stops o t -> writesBeforeCommands socketName serviceName o t.
Proof.
  intros [Hq Ho].
  pose proof (quiet_writesOf t Hq) as Hw.
  unfold writesBeforeCommands. rewrite Hw, (writesOf_names t Hw).
  split; [exists 0%nat; reflexivity|].
  split; [intros ->; destruct Ho; discriminate|].
  split; [|discriminate].
  intros pre e post Heq He.
  rewrite (quiet_no_exec t Hq e) in He; [discriminate|]. rewrite Heq. apply in_elt.
Qed.

Lemma stops_commandsFailFast os commands failureText o t :
  Stops o t -> commandsFailFast os commands failureText o t.
Proof.
  intros [Hq Ho].
  pose proof (quiet_writesOf t Hq) as Hw.
  pose proof (quiet_execsOf t Hq) as He.
  unfold commandsFailFast. rewrite Hw, He, (execsOf_args t He).
  split; [exists 0%nat; reflexivity|].
  split; [intros ->; destruct Ho; discriminate|].
  split; [discriminate|].
  intros pre args output e post Heq. exfalso.
  assert (Hex : isExec (Exec args output (Some e)) = false).
  { apply (quiet_no_exec t Hq). rewrite Heq. apply in_elt. }
  discriminate.
Qed.

Lemma installs_written x os o t name data perm err :
  Installs x os o t ->
  In (WriteFile name data perm err) t ->
  perm = perm0644 /\
  ((name = socketPath x /\ data = socketData x /\ err = socketWrite x os) \/
   (name = servicePath x /\ data = serviceData x /\ err = serviceWrite x os /\
    socketWrite x os = None)).
Proof.
  intros (pre & Hq & -> & _) Hin.
  assert (Hw : In (WriteFile name data perm err) (writesOf (pre ++ provisionEvents x os))).
  { apply filter_In. auto. }
  unfold provisionEvents in Hw.
  rewrite !writesOf_app, (quiet_writesOf pre Hq), app_nil_l in Hw.
  replace (writesOf (if writesSucceed x os then commandPhase x os else [])) with (@nil Event) in Hw
    by (destruct (writesSucceed x os); [now rewrite commandPhase_no_write|reflexivity]).
  rewrite app_nil_r in Hw.
  destruct (writePhase_cases x os)
    as [(e1 & Hs & _ & H)|[(e1 & Hs & Hv & _ & H)|(Hs & Hv & _ & H)]];
    rewrite H in Hw; simpl in Hw;
    repeat (destruct Hw as [Hw|Hw]; [injection Hw as <- <- <- <-; split; auto|]);
    contradiction.
Qed.

Lemma stops_written o t name data perm err :
  Stops o t -> In (WriteFile name data perm err) t -> False.
Proof.
  intros [Hq _] Hin.
  assert (Hw : In (WriteFile name data perm err) (writesOf t)) by (apply filter_In; auto).
  now rewrite (quiet_writesOf t Hq) in Hw.
Qed.

(** ** The shape of every run *)

Lemma epson_shape os :
  Stops (fst (run Epson.main os)) (epsonTrace os) \/
  Installs EpsonTrace.script os (fst (run Epson.main os)) (epsonTrace os).
Proof.
  unfold epsonTrace. rewrite epson_main_run.
  destruct (negb (euid os =? 0)); simpl.
  - left. split; auto.
  - right. exists EpsonTrace.greeting. auto.
Qed.

Lemma discovery_quiet os matches : forallb quiet (EscposTrace.discovery os matches) = true.
Proof.
  unfold EscposTrace.discovery. simpl. rewrite forallb_app. simpl.
  apply andb_true_iff. split.
  - induction matches; simpl; auto.
  - induction (EscposTrace.discovered os matches); simpl; auto.
Qed.

Lemma escpos_shape fuel os :
  Stops (fst (run (Escpos.main fuel) os)) (escposTrace fuel os) \/
  exists selectedPrinter,
    selects fuel os selectedPrinter /\
    Installs (EscposTrace.script selectedPrinter) os
      (fst (run (Escpos.main fuel) os)) (escposTrace fuel os).
Proof.
  unfold escposTrace, selects. rewrite escpos_main_run.
  destruct (negb (euid os =? 0)) eqn:Huid.
  { left. split; auto. }
  apply negb_false_iff, Z.eqb_eq in Huid.
  destruct (globResult os "/dev/usb/lp*") as [matches|e].
  2:{ left. split; auto. }
  set (s0 := {| trace := EscposTrace.greeting ++ EscposTrace.discovery os matches;
                nscan := 0 |}).
  destruct (selectPrinter_quiet fuel (EscposTrace.discovered os matches) os s0)
    as (o & evs & n & Hrun & Hq & Ho).
  assert (Hpre : forallb quiet (trace s0 ++ evs) = true).
  { unfold s0. cbn [trace]. rewrite !forallb_app, Hq, discovery_quiet. reflexivity. }
  rewrite Hrun.
  destruct o as [[selectedPrinter|e]| | |]; try contradiction; cbn [fst snd trace record].
  - right. exists selectedPrinter. split.
    + exists matches. fold s0. rewrite Hrun. auto.
    + exists (trace s0 ++ evs ++ [EscposTrace.selectedLine selectedPrinter])%list.
      split; [|split; [|reflexivity]].
      * rewrite app_assoc, forallb_app, Hpre. reflexivity.
      * rewrite <- !app_assoc. reflexivity.
  - left. destruct Ho as [_ ->]. split; [|auto].
    rewrite app_nil_r in *. rewrite forallb_app, Hpre. reflexivity.
  - left. split; [|auto]. exact Hpre.
Qed.

(** * The claims *)

(** ** Running systemctl *)

(** C2.  In both installers the commands run are an initial part, in
    order, of [systemctl daemon-reload], [systemctl enable --now
    <name>.socket], [systemctl restart <name>.socket]; once both unit files
    are written they run up to and including the first one that returns an
    error; a run that completes has run all three without error; and after
    a command that returns an error the only further event is the fatal log
    line, which holds the command line, the error and the combined output:
    the run ends with [os.Exit(1)] and no later command is run. *)
Theorem C2_systemctl_fail_fast :
  (forall fuel os,
     commandsFailFast os (systemctlCommands "escpos-printer") EscposTrace.failureText
       (fst (run (Escpos.main fuel) os)) (escposTrace fuel os)) /\
  (forall os,
     commandsFailFast os (systemctlCommands "epson-printer") EpsonTrace.failureText
       (fst (run Epson.main os)) (epsonTrace os)).
Proof.
  split.
  - intros fuel os. destruct (escpos_shape fuel os) as [Hstop|(sel & _ & Hinst)].
    + now apply stops_commandsFailFast.
    + apply (installs_commandsFailFast (EscposTrace.script sel) os _ _ Hinst).
  - intros os. destruct (epson_shape os) as [Hstop|Hinst].
    + now apply stops_commandsFailFast.
    + apply (installs_commandsFailFast EpsonTrace.script os _ _ Hinst).
Qed.

(** When [systemctl enable] fails, it is event 27 of the run and the fatal
    log line is all that follows. *)
Lemma C2_systemctl_fail_fast_witness :
  fst (run (Escpos.main 5) enableFailsOS) = Exit 1 /\
  skipn 28 (escposTrace 5 enableFailsOS) =
    [LogFatal
       (EscposTrace.failureText ["systemctl"; "enable"; "--now"; "escpos-printer.socket"]
          "exit status 1" "Failed to enable unit: Access denied")].
Proof.
  destruct (proj1 C2_systemctl_fail_fast 5%nat enableFailsOS) as (_ & _ & _ & H).
  apply (H (firstn 27 (escposTrace 5 enableFailsOS))
           ["systemctl"; "enable"; "--now"; "escpos-printer.socket"]
           "Failed to enable unit: Access denied" "exit status 1"
           (skipn 28 (escposTrace 5 enableFailsOS))).
  vm_compute. reflexivity.
Defined.

(** ** The privilege check *)

(** C3.  When the effective user id is not 0, either installer prints its
    start-up line, reads the effective user id, logs the fatal message and
    exits with status 1: nothing is globbed, stat'ed, read, written or
    run.  In every run, whatever the user id, reading it is the first thing
    done after the start-up line. *)
Theorem C3_privilege_check_first (fuel : nat) (os : OS) :
  euid os <> 0 ->
  run (Escpos.main fuel) os =
    (Exit 1,
     {| trace := [Stdout ("Iniciando la configuración del servicio de impresora ESC/POS..." ++ LF);
                  Geteuid;
                  LogFatal "Este programa debe ejecutarse como root o con sudo."];
        nscan := 0 |}) /\
  run Epson.main os =
    (Exit 1,
     {| trace := [Stdout ("Starting Epson Printer Service Setup..." ++ LF);
                  Geteuid;
                  LogFatal "This program must be run as root or with sudo."];
        nscan := 0 |}) /\
  (forall fuel' os', exists rest,
     escposTrace fuel' os' =
       Stdout ("Iniciando la configuración del servicio de impresora ESC/POS..." ++ LF)
         :: Geteuid :: rest) /\
  (forall os', exists rest,
     epsonTrace os' =
       Stdout ("Starting Epson Printer Service Setup..." ++ LF) :: Geteuid :: rest).
Proof.
  intros Huid. apply Z.eqb_neq in Huid.
  rewrite escpos_main_run, epson_main_run, Huid. simpl negb. cbv iota.
  repeat split.
  - intros fuel' os'. unfold escposTrace. rewrite escpos_main_run.
    destruct (negb (euid os' =? 0)); [eexists; reflexivity|].
    destruct (globResult os' "/dev/usb/lp*") as [matches|e]; [|eexists; reflexivity].
    set (s0 := {| trace := (EscposTrace.greeting ++ EscposTrace.discovery os' matches)%list;
                  nscan := 0 |}).
    destruct (selectPrinter_quiet fuel' (EscposTrace.discovered os' matches) os' s0)
      as (o & evs & n & -> & _ & _).
    destruct o as [[sel|e]| | |]; eexists; reflexivity.
  - intros os'. unfold epsonTrace. rewrite epson_main_run.
    destruct (negb (euid os' =? 0)); eexists; reflexivity.
Qed.

Lemma C3_privilege_check_first_witness :
  euid nonRootOS <> 0 /\
  fst (run (Escpos.main 3) nonRootOS) = Exit 1 /\
  fst (run Epson.main nonRootOS) = Exit 1.
Proof.
  assert (H : euid nonRootOS <> 0) by (simpl; lia).
  destruct (C3_privilege_check_first 3 nonRootOS H) as (H1 & H2 & _).
  rewrite H1, H2. auto.
Defined.

(** ** Discovery *)

(** C4.  [findPrinters] globs the one pattern [/dev/usb/lp*], stats every
    match in glob order, and returns the matches whose stat succeeds with
    the character-device bit set in the mode, in glob order; the other
    matches are left out and make no error. *)
Theorem C4_findPrinters_filters_glob (os : OS) (s : State) (matches : list string) :
  globResult os "/dev/usb/lp*" = Ok matches ->
  Escpos.findPrinters os s =
    (Done (Ok (filter (fun name =>
                         match statResult os name with
                         | Ok info => Z.testbit (Mode info) 21
                         | Err _ => false
                         end) matches)),
     record s (Glob "/dev/usb/lp*" :: map Stat matches)).
Proof.
  intros Hglob. rewrite findPrinters_run, Hglob. reflexivity.
Qed.

Lemma C4_findPrinters_filters_glob_witness :
  globResult demoOS "/dev/usb/lp*" = Ok ["/dev/usb/lp0"; "/dev/usb/lp1"; "/dev/usb/lpx"] /\
  fst (Escpos.findPrinters demoOS initial) = Done (Ok ["/dev/usb/lp0"; "/dev/usb/lp1"]).
Proof.
  split.
  - reflexivity.
  - rewrite (C4_findPrinters_filters_glob demoOS initial
               ["/dev/usb/lp0"; "/dev/usb/lp1"; "/dev/usb/lpx"] eq_refl).
    reflexivity.
Defined.

(** ** The selection prompt *)

Lemma numberedFrom_nth (printers : list string) : forall (start : Z) (i : nat) (p : string),
  nth_error printers i = Some p ->
  nth_error (numberedFrom start printers) i
    = Some (Stdout (itoa (start + Z.of_nat i) ++ ". " ++ p ++ LF)).
Proof.
  induction printers as [|q rest IH]; intros start [|i] p H; simpl in *; try discriminate.
  - injection H as ->. now rewrite Z.add_0_r.
  - rewrite (IH (start + 1) i p H). do 4 f_equal. lia.
Qed.

Lemma numberedFrom_length (printers : list string) : forall start,
  List.length (numberedFrom start printers) = List.length printers.
Proof. induction printers as [|q rest IH]; intros start; simpl; auto. Qed.

(** The run of [selectPrinter] on a list that is not empty, when the first
    accepted input is the one after [n] rejected ones. *)
Lemma selectPrinter_run (fuel n : nat) (printers : list string) (k : Z) os s :
  printers <> [] ->
  (forall j, (j < n)%nat -> accepted printers (scanResult os (nscan s + j)) = false) ->
  scanResult os (nscan s + n) = ScanOk k ->
  1 <= k <= len printers ->
  (n < fuel)%nat ->
  exists p,
    nth_error printers (Z.to_nat (k - 1)) = Some p /\
    Escpos.selectPrinter fuel printers os s =
      (Done (Ok p),
       {| trace := trace s ++ Stdout headerText :: numberedFrom 1 printers
                     ++ rejections os (nscan s) n
                     ++ [Stdout promptText; Scanln (ScanOk k)];
          nscan := S (nscan s + n) |}).
Proof.
  intros Hne Hrej Hscan Hk Hfuel.
  rewrite (selectPrinter_nonempty fuel printers os s Hne).
  set (s1 := record s (Stdout headerText :: numberedFrom 1 printers)).
  assert (Hacc : accepted printers (ScanOk k) = true).
  { simpl. apply andb_true_iff. split; lia. }
  unfold bind at 1.
  rewrite (loop_run printers k os n fuel 0 s1 Hrej Hscan Hacc Hfuel).
  cbv beta iota. unfold bind at 1.
  match goal with
  | |- context [index printers (k - 1) os ?s2] =>
      destruct (index_run printers k os s2 Hk) as (p & Hnth & Hidx)
  end.
  exists p. split; [exact Hnth|].
  rewrite Hidx. unfold ret, s1. simpl.
  rewrite <- app_assoc. reflexivity.
Qed.

(** ** Writing the unit files *)

Lemma installs_writes x os o t :
  Installs x os o t ->
  writesOf t =
    unitFileWrites os (socketPath x) (socketData x) (servicePath x) (serviceData x).
Proof.
  intros (pre & Hq & -> & _). unfold provisionEvents, unitFileWrites.
  rewrite !writesOf_app, (quiet_writesOf pre Hq), app_nil_l.
  replace (writesOf (if writesSucceed x os then commandPhase x os else [])) with (@nil Event)
    by (destruct (writesSucceed x os); [now rewrite commandPhase_no_write|reflexivity]).
  rewrite app_nil_r.
  change (writeResult os (socketPath x) (socketData x) 420) with (socketWrite x os).
  change (writeResult os (servicePath x) (serviceData x) 420) with (serviceWrite x os).
  destruct (writePhase_cases x os)
    as [(e1 & Hs & _ & ->)|[(e1 & Hs & Hv & _ & ->)|(Hs & Hv & _ & ->)]];
    rewrite Hs, ?Hv; reflexivity.
Qed.

Lemma installs_first_command x os o t c rest :
  Installs x os o t ->
  cmds x = c :: rest ->
  socketWrite x os = None ->
  serviceWrite x os = None ->
  exists more, execArgs t = c :: more.
Proof.
  intros (pre & Hq & -> & _) Hcmds Hs Hv.
  unfold provisionEvents, writesSucceed. rewrite Hs, Hv. cbn [isNil andb].
  rewrite !execArgs_app, (execsOf_args pre (quiet_execsOf pre Hq)), app_nil_l.
  rewrite (execsOf_args _ (no_exec_execsOf _ (writePhase_no_exec x os))), app_nil_l.
  rewrite commandPhase_args, Hcmds. simpl.
  destruct (isNil (snd (commandResult os c))); eauto.
Qed.

Lemma epson_root_installs os :
  euid os = 0 ->
  Installs EpsonTrace.script os (fst (run Epson.main os)) (epsonTrace os).
Proof.
  intros Huid. unfold epsonTrace. rewrite epson_main_run, Huid. cbn [Z.eqb negb fst snd trace].
  exists EpsonTrace.greeting. auto.
Qed.

Lemma escpos_selected_installs fuel os selectedPrinter :
  selects fuel os selectedPrinter ->
  Installs (EscposTrace.script selectedPrinter) os
    (fst (run (Escpos.main fuel) os)) (escposTrace fuel os).
Proof.
  intros (matches & Huid & Hglob & Hsel).
  unfold escposTrace. rewrite escpos_main_run, Huid, Hglob. cbn [Z.eqb negb].
  set (s0 := {| trace := (EscposTrace.greeting ++ EscposTrace.discovery os matches)%list;
                nscan := 0 |}) in *.
  destruct (selectPrinter_quiet fuel (EscposTrace.discovered os matches) os s0)
    as (o & evs & n & Hrun & Hq & _).
  rewrite Hrun in *. cbn [fst] in Hsel. subst o. cbn [fst snd trace record].
  exists (trace s0 ++ evs ++ [EscposTrace.selectedLine selectedPrinter])%list.
  split; [|split; [|reflexivity]].
  - unfold s0. cbn [trace]. rewrite !forallb_app, Hq, discovery_quiet. reflexivity.
  - rewrite <- !app_assoc. reflexivity.
Qed.

(** The inputs under which [main] gets [selectedPrinter] from
    [selectPrinter]: root, a glob that succeeds, [n] rejected inputs and
    then the number [k] of a discovered printer. *)
Lemma inputs_select (fuel n : nat) os (matches : list string) (k : Z)
    (selectedPrinter : string) :
  euid os = 0 ->
  globResult os "/dev/usb/lp*" = Ok matches ->
  (forall j, (j < n)%nat ->
     accepted (filter (charDeviceAt os) matches) (scanResult os j) = false) ->
  scanResult os n = ScanOk k ->
  1 <= k ->
  nth_error (filter (charDeviceAt os) matches) (Z.to_nat (k - 1)) = Some selectedPrinter ->
  (n < fuel)%nat ->
  selects fuel os selectedPrinter.
Proof.
  intros Huid Hglob Hrej Hscan Hk1 Hnth Hfuel.
  exists matches. split; [exact Huid|]. split; [exact Hglob|].
  unfold EscposTrace.discovered.
  assert (Hne : filter (charDeviceAt os) matches <> []).
  { intros Hnil. rewrite Hnil in Hnth. destruct (Z.to_nat (k - 1)); discriminate. }
  assert (Hk : 1 <= k <= len (filter (charDeviceAt os) matches)).
  { assert (Hlt : (Z.to_nat (k - 1) < List.length (filter (charDeviceAt os) matches))%nat).
    { apply nth_error_Some. congruence. }
    unfold len. lia. }
  destruct (selectPrinter_run fuel n (filter (charDeviceAt os) matches) k os
              {| trace := (EscposTrace.greeting ++ EscposTrace.discovery os matches)%list;
                 nscan := 0 |} Hne Hrej Hscan Hk Hfuel) as (p & Hnth' & ->).
  cbn [fst]. congruence.
Qed.

(** C1.  A run of either installer that comes to the writing step writes
    the socket unit [/etc/systemd/system/<name>.socket] with mode 0644 and
    then, if that write returned no error, the template service unit
    [/etc/systemd/system/<name>@.service]; these are all the writes of the
    run.  The Epson installer comes to that step whenever root runs it,
    the ESC/POS installer whenever [selectPrinter] has returned a printer,
    which it does for root once a valid number is typed.  When both
    writes return no error, [systemctl daemon-reload] is run next.  In
    every run the files written are these two at most, the socket unit
    first, and a run that completes has written both; every [systemctl]
    invocation comes after both writes, and both have succeeded; a run in
    which a write fails ends with [os.Exit(1)] and runs no command. *)
Theorem C1_unit_files_before_systemctl :
  (forall fuel os,
     writesBeforeCommands
       "/etc/systemd/system/escpos-printer.socket"
       "/etc/systemd/system/escpos-printer@.service"
       (fst (run (Escpos.main fuel) os)) (escposTrace fuel os) /\
     (forall selectedPrinter,
        selects fuel os selectedPrinter ->
        writesOf (escposTrace fuel os) =
          unitFileWrites os
            "/etc/systemd/system/escpos-printer.socket" Escpos.socketFileContent
            "/etc/systemd/system/escpos-printer@.service"
            (Escpos.serviceFileContent selectedPrinter) /\
        (writeResult os "/etc/systemd/system/escpos-printer.socket"
           Escpos.socketFileContent 420 = None ->
         writeResult os "/etc/systemd/system/escpos-printer@.service"
           (Escpos.serviceFileContent selectedPrinter) 420 = None ->
         exists more,
           execArgs (escposTrace fuel os) = ["systemctl"; "daemon-reload"] :: more)) /\
     (forall matches n k selectedPrinter,
        euid os = 0 ->
        globResult os "/dev/usb/lp*" = Ok matches ->
        (forall j, (j < n)%nat ->
           accepted (filter (charDeviceAt os) matches) (scanResult os j) = false) ->
        scanResult os n = ScanOk k ->
        1 <= k ->
        nth_error (filter (charDeviceAt os) matches) (Z.to_nat (k - 1))
          = Some selectedPrinter ->
        (n < fuel)%nat ->
        writesOf (escposTrace fuel os) =
          unitFileWrites os
            "/etc/systemd/system/escpos-printer.socket" Escpos.socketFileContent
            "/etc/systemd/system/escpos-printer@.service"
            (Escpos.serviceFileContent selectedPrinter))) /\
  (forall os,
     writesBeforeCommands
       "/etc/systemd/system/epson-printer.socket"
       "/etc/systemd/system/epson-printer@.service"
       (fst (run Epson.main os)) (epsonTrace os) /\
     (euid os = 0 ->
      writesOf (epsonTrace os) =
        unitFileWrites os
          "/etc/systemd/system/epson-printer.socket" Epson.socketFileContent
          "/etc/systemd/system/epson-printer@.service" Epson.serviceFileContent /\
      (writeResult os "/etc/systemd/system/epson-printer.socket"
         Epson.socketFileContent 420 = None ->
       writeResult os "/etc/systemd/system/epson-printer@.service"
         Epson.serviceFileContent 420 = None ->
       exists more,
         execArgs (epsonTrace os) = ["systemctl"; "daemon-reload"] :: more))).
Proof.
  split.
  - intros fuel os.
    assert (Hsel : forall sel, selects fuel os sel ->
              writesOf (escposTrace fuel os) =
                unitFileWrites os
                  "/etc/systemd/system/escpos-printer.socket" Escpos.socketFileContent
                  "/etc/systemd/system/escpos-printer@.service"
                  (Escpos.serviceFileContent sel)).
    { intros sel Hs.
      exact (installs_writes _ _ _ _ (escpos_selected_installs fuel os sel Hs)). }
    split; [|split].
    + destruct (escpos_shape fuel os) as [Hstop|(sel & _ & Hinst)].
      * now apply stops_writesBeforeCommands.
      * apply (installs_writesBeforeCommands (EscposTrace.script sel) os _ _ Hinst).
    + intros sel Hs. split; [exact (Hsel sel Hs)|]. intros Hsock Hserv.
      exact (installs_first_command (EscposTrace.script sel) os _ _ _ _
               (escpos_selected_installs fuel os sel Hs) eq_refl Hsock Hserv).
    + intros matches n k sel Huid Hglob Hrej Hscan Hk Hnth Hfuel.
      apply Hsel. exact (inputs_select fuel n os matches k sel Huid Hglob Hrej Hscan Hk Hnth Hfuel).
  - intros os. split.
    + destruct (epson_shape os) as [Hstop|Hinst].
      * now apply stops_writesBeforeCommands.
      * apply (installs_writesBeforeCommands EpsonTrace.script os _ _ Hinst).
    + intros Huid. split.
      * exact (installs_writes _ _ _ _ (epson_root_installs os Huid)).
      * intros Hsock Hserv.
        exact (installs_first_command EpsonTrace.script os _ _ _ _
                 (epson_root_installs os Huid) eq_refl Hsock Hserv).
Qed.

(** On the test machine the user types 7, then 2: both unit files are
    written, the service unit for the second printer. *)
Lemma C1_unit_files_before_systemctl_witness :
  writesOf (escposTrace 5 demoOS) =
    [WriteFile "/etc/systemd/system/escpos-printer.socket"
       Escpos.socketFileContent 420 None;
     WriteFile "/etc/systemd/system/escpos-printer@.service"
       (Escpos.serviceFileContent "/dev/usb/lp1") 420 None] /\
  exists d d',
    writesOf (firstn 24 (escposTrace 5 demoOS)) =
      [WriteFile "/etc/systemd/system/escpos-printer.socket" d perm0644 None;
       WriteFile "/etc/systemd/system/escpos-printer@.service" d' perm0644 None].
Proof.
  destruct (proj1 C1_unit_files_before_systemctl 5%nat demoOS)
    as ((_ & _ & Hbefore & _) & _ & Hinputs).
  split.
  - assert (Hrej : forall j, (j < 1)%nat ->
              accepted (filter (charDeviceAt demoOS)
                          ["/dev/usb/lp0"; "/dev/usb/lp1"; "/dev/usb/lpx"])
                (scanResult demoOS j) = false).
    { intros j Hj. assert (j = 0%nat) as -> by lia. reflexivity. }
    assert (Hk : 1 <= 2) by lia.
    assert (Hfuel : (1 < 5)%nat) by lia.
    rewrite (Hinputs ["/dev/usb/lp0"; "/dev/usb/lp1"; "/dev/usb/lpx"] 1%nat 2
               "/dev/usb/lp1" eq_refl eq_refl Hrej eq_refl Hk eq_refl Hfuel).
    reflexivity.
  - apply (Hbefore (firstn 24 (escposTrace 5 demoOS))
             (Exec ["systemctl"; "daemon-reload"] "" None)
             (skipn 25 (escposTrace 5 demoOS))).
    + vm_compute. reflexivity.
    + reflexivity.
Defined.

(** ** Choosing a printer *)

(** C5.  For a list of printers that is not empty, [selectPrinter] prints
    the heading and then one line [i. path] per printer, numbered from 1
    in list order.  When the user then supplies a number [k] with
    [1 <= k <= len(printers)] (after [n] inputs that were rejected, [n]
    being 0 when the first input is the valid one), it returns the [k]-th
    printer, element [k-1] of the list, with a nil error. *)
Theorem C5_selectPrinter_returns_choice (fuel n : nat) (printers : list string) (k : Z)
    (os : OS) (s : State) :
  printers <> [] ->
  (forall j, (j < n)%nat -> accepted printers (scanResult os (nscan s + j)) = false) ->
  scanResult os (nscan s + n) = ScanOk k ->
  1 <= k <= len printers ->
  (n < fuel)%nat ->
  exists p rest,
    nth_error printers (Z.to_nat (k - 1)) = Some p /\
    fst (Escpos.selectPrinter fuel printers os s) = Done (Ok p) /\
    trace (snd (Escpos.selectPrinter fuel printers os s)) =
      (trace s
         ++ Stdout (LF ++ "Se encontraron las siguientes impresoras USB:" ++ LF)
         :: numberedFrom 1 printers ++ rest)%list /\
    List.length (numberedFrom 1 printers) = List.length printers /\
    (forall i q, nth_error printers i = Some q ->
       nth_error (numberedFrom 1 printers) i
         = Some (Stdout (itoa (Z.of_nat i + 1) ++ ". " ++ q ++ LF))).
Proof.
  intros Hne Hrej Hscan Hk Hfuel.
  destruct (selectPrinter_run fuel n printers k os s Hne Hrej Hscan Hk Hfuel)
    as (p & Hnth & Hrun).
  exists p, (rejections os (nscan s) n ++ [Stdout promptText; Scanln (ScanOk k)])%list.
  rewrite Hrun. repeat split; auto.
  - apply numberedFrom_length.
  - intros i q Hq. rewrite (numberedFrom_nth printers 1 i q Hq). do 4 f_equal. lia.
Qed.

(** On the test machine's two printers the user types 7, then 2. *)
Lemma C5_selectPrinter_returns_choice_witness :
  fst (Escpos.selectPrinter 2 ["/dev/usb/lp0"; "/dev/usb/lp1"] demoOS initial)
    = Done (Ok "/dev/usb/lp1").
Proof.
  assert (Hne : ["/dev/usb/lp0"; "/dev/usb/lp1"] <> @nil string) by discriminate.
  assert (Hrej : forall j, (j < 1)%nat ->
            accepted ["/dev/usb/lp0"; "/dev/usb/lp1"]
              (scanResult demoOS (nscan initial + j)) = false).
  { intros j Hj. assert (j = 0%nat) as -> by lia. reflexivity. }
  assert (Hk : 1 <= 2 <= len ["/dev/usb/lp0"; "/dev/usb/lp1"]) by (unfold len; simpl; lia).
  assert (Hfuel : (1 < 2)%nat) by lia.
  destruct (C5_selectPrinter_returns_choice 2 1 ["/dev/usb/lp0"; "/dev/usb/lp1"] 2
              demoOS initial Hne Hrej eq_refl Hk Hfuel) as (p & rest & Hnth & Hfst & _).
  rewrite Hfst. simpl in Hnth. injection Hnth as <-. reflexivity.
Defined.

(** C6 as stated fails: on the test machine the first number typed, 7, is
    out of range; [selectPrinter] asks again and completes only after the
    second [Scanln]. *)
Lemma C6_counterexample : ~ readsOneInteger ["/dev/usb/lp0"; "/dev/usb/lp1"] demoOS.
Proof.
  intros (fuel & r & s & Hrun & Hn).
  destruct fuel as [|[|fuel]].
  - discriminate Hrun.
  - discriminate Hrun.
  - assert (Hne : ["/dev/usb/lp0"; "/dev/usb/lp1"] <> @nil string) by discriminate.
    assert (Hrej : forall j, (j < 1)%nat ->
              accepted ["/dev/usb/lp0"; "/dev/usb/lp1"]
                (scanResult demoOS (nscan initial + j)) = false).
    { intros j Hj. assert (j = 0%nat) as -> by lia. reflexivity. }
    assert (Hk : 1 <= 2 <= len ["/dev/usb/lp0"; "/dev/usb/lp1"]) by (unfold len; simpl; lia).
    destruct (selectPrinter_run (S (S fuel)) 1 ["/dev/usb/lp0"; "/dev/usb/lp1"] 2
                demoOS initial Hne Hrej eq_refl Hk ltac:(lia)) as (p & _ & Hrun').
    rewrite Hrun' in Hrun. injection Hrun as _ <-. discriminate Hn.
Qed.

(** C6, amended.  On a list that is not empty [selectPrinter] calls
    [Scanln] until a call returns, without error, a number between 1 and
    [len(printers)]: when the first such input comes after [n] rejected
    ones it completes having made exactly [n + 1] calls (one call when the
    first input is valid), and when no input is ever accepted it never
    completes. *)
Theorem C6_selectPrinter_reads_until_valid (printers : list string) (os : OS) (s : State) :
  printers <> [] ->
  (forall n k,
     (forall j, (j < n)%nat -> accepted printers (scanResult os (nscan s + j)) = false) ->
     scanResult os (nscan s + n) = ScanOk k ->
     1 <= k <= len printers ->
     forall fuel, (n < fuel)%nat ->
     exists p,
       fst (Escpos.selectPrinter fuel printers os s) = Done (Ok p) /\
       nscan (snd (Escpos.selectPrinter fuel printers os s)) = (nscan s + (n + 1))%nat) /\
  ((forall j, accepted printers (scanResult os (nscan s + j)) = false) ->
   forall fuel, fst (Escpos.selectPrinter fuel printers os s) = OutOfFuel).
Proof.
  intros Hne. split.
  - intros n k Hrej Hscan Hk fuel Hfuel.
    destruct (selectPrinter_run fuel n printers k os s Hne Hrej Hscan Hk Hfuel)
      as (p & _ & Hrun).
    exists p. rewrite Hrun. simpl. split; [reflexivity|lia].
  - intros Hrej fuel.
    rewrite (selectPrinter_nonempty fuel printers os s Hne).
    unfold bind at 1.
    pose proof (loop_spins printers os fuel 0
                  (record s (Stdout headerText :: numberedFrom 1 printers)) Hrej) as Hspin.
    destruct (Escpos.selectPrinter_loop fuel printers 0 os _) as [o s']. simpl in Hspin.
    now subst o.
Qed.

Lemma C6_selectPrinter_reads_until_valid_witness :
  nscan (snd (Escpos.selectPrinter 5 ["/dev/usb/lp0"; "/dev/usb/lp1"] demoOS initial))
    = 2%nat.
Proof.
  assert (Hne : ["/dev/usb/lp0"; "/dev/usb/lp1"] <> @nil string) by discriminate.
  assert (Hrej : forall j, (j < 1)%nat ->
            accepted ["/dev/usb/lp0"; "/dev/usb/lp1"]
              (scanResult demoOS (nscan initial + j)) = false).
  { intros j Hj. assert (j = 0%nat) as -> by lia. reflexivity. }
  assert (Hk : 1 <= 2 <= len ["/dev/usb/lp0"; "/dev/usb/lp1"]) by (unfold len; simpl; lia).
  assert (Hfuel : (1 < 5)%nat) by lia.
  destruct (proj1 (C6_selectPrinter_reads_until_valid ["/dev/usb/lp0"; "/dev/usb/lp1"]
                     demoOS initial Hne) 1%nat 2 Hrej eq_refl Hk 5%nat Hfuel)
    as (p & _ & Hn).
  exact Hn.
Defined.

(** ** The unit file contents *)

Lemma lines_nonempty (s : string) : lines s <> [].
Proof.
  induction s as [|c s IH]; simpl; [discriminate|].
  destruct (Ascii.eqb c (ascii_of_nat 10)); [discriminate|].
  destruct (lines s); discriminate.
Qed.

Lemma lines_app_LF (a b : string) : lines (a ++ LF ++ b) = (lines a ++ lines b)%list.
Proof.
  induction a as [|c a IH]; simpl; [reflexivity|].
  destruct (Ascii.eqb c (ascii_of_nat 10)).
  - simpl in IH. now rewrite IH.
  - simpl in IH. rewrite IH.
    pose proof (lines_nonempty a) as Hne. destruct (lines a); [congruence|reflexivity].
Qed.

Lemma serviceFileContent_lines (printerPath : string) :
  In "StandardInput=socket" (lines (Escpos.serviceFileContent printerPath)).
Proof.
  rewrite serviceFileContent_eq.
  set (head := rawLines ["[Unit]"; "Description=ESC/POS Printer Service"; ""; "[Service]"]).
  rewrite <- (append_assoc head), <- (append_assoc _ printerPath).
  rewrite lines_app_LF.
  apply in_or_app. right. simpl. auto.
Qed.

Lemma serviceFileContent_inj (p q : string) :
  Escpos.serviceFileContent p = Escpos.serviceFileContent q -> p = q.
Proof.
  rewrite !serviceFileContent_eq. intros H.
  apply append_inv_head, append_inv_head, append_inv_tail in H. exact H.
Qed.

Lemma escpos_written fuel os name data perm err :
  In (WriteFile name data perm err) (escposTrace fuel os) ->
  (name = Escpos.socketFilePath /\ data = Escpos.socketFileContent) \/
  (name = Escpos.serviceFilePath /\
   exists selectedPrinter,
     selects fuel os selectedPrinter /\ data = Escpos.serviceFileContent selectedPrinter).
Proof.
  intros Hin. destruct (escpos_shape fuel os) as [Hstop|(sel & Hsel & Hinst)].
  - destruct (stops_written _ _ _ _ _ _ Hstop Hin).
  - destruct (installs_written _ _ _ _ _ _ _ _ Hinst Hin)
      as [_ [(-> & -> & _)|(-> & -> & _)]]; [left|right]; simpl; eauto.
Qed.

Lemma epson_written os name data perm err :
  In (WriteFile name data perm err) (epsonTrace os) ->
  (name = Epson.socketFilePath /\ data = Epson.socketFileContent) \/
  (name = Epson.serviceFilePath /\ data = Epson.serviceFileContent).
Proof.
  intros Hin. destruct (epson_shape os) as [Hstop|Hinst].
  - destruct (stops_written _ _ _ _ _ _ Hstop Hin).
  - destruct (installs_written _ _ _ _ _ _ _ _ Hinst Hin)
      as [_ [(-> & -> & _)|(-> & -> & _)]]; [left|right]; simpl; eauto.
Qed.

Lemma selects_unique fuel os p q : selects fuel os p -> selects fuel os q -> p = q.
Proof.
  intros (m1 & _ & Hg1 & H1) (m2 & _ & Hg2 & H2).
  rewrite Hg1 in Hg2. injection Hg2 as <-. rewrite H1 in H2. now injection H2.
Qed.

Lemma socket_constant fuel os data perm err :
  In (WriteFile Escpos.socketFilePath data perm err) (escposTrace fuel os) ->
  data = Escpos.socketFileContent.
Proof.
  intros Hin. destruct (escpos_written _ _ _ _ _ _ Hin) as [[_ H]|[H _]]; [exact H|].
  discriminate H.
Qed.

Lemma service_formatted fuel os data perm err :
  In (WriteFile Escpos.serviceFilePath data perm err) (escposTrace fuel os) ->
  exists selectedPrinter,
    selects fuel os selectedPrinter /\ data = Escpos.serviceFileContent selectedPrinter.
Proof.
  intros Hin. destruct (escpos_written _ _ _ _ _ _ Hin) as [[H _]|[_ H]]; [|exact H].
  discriminate H.
Qed.

Lemma demo_socket_written :
  In (WriteFile Escpos.socketFilePath Escpos.socketFileContent perm0644 None)
    (escposTrace 5 demoOS).
Proof. vm_compute. repeat (first [left; reflexivity | right]). Qed.

Lemma demo_service_written :
  In (WriteFile Escpos.serviceFilePath (Escpos.serviceFileContent "/dev/usb/lp1")
        perm0644 None)
    (escposTrace 5 demoOS).
Proof. vm_compute. repeat (first [left; reflexivity | right]). Qed.

Lemma firstChoice_socket_written :
  In (WriteFile Escpos.socketFilePath Escpos.socketFileContent perm0644 None)
    (escposTrace 5 firstChoiceOS).
Proof. vm_compute. repeat (first [left; reflexivity | right]). Qed.

Lemma firstChoice_service_written :
  In (WriteFile Escpos.serviceFilePath (Escpos.serviceFileContent "/dev/usb/lp0")
        perm0644 None)
    (escposTrace 5 firstChoiceOS).
Proof. vm_compute. repeat (first [left; reflexivity | right]). Qed.

Lemma service_varies : variesBetweenRuns escposTrace Escpos.serviceFilePath.
Proof.
  exists 5%nat, demoOS, 5%nat, firstChoiceOS.
  exists (Escpos.serviceFileContent "/dev/usb/lp1"), perm0644, None.
  exists (Escpos.serviceFileContent "/dev/usb/lp0"), perm0644, None.
  split; [exact demo_service_written|].
  split; [exact firstChoice_service_written|].
  intros H. apply serviceFileContent_inj in H. discriminate H.
Qed.

Lemma socket_fixed : ~ variesBetweenRuns escposTrace Escpos.socketFilePath.
Proof.
  intros (fuel1 & os1 & fuel2 & os2 & d1 & perm1 & e1 & d2 & perm2 & e2 & H1 & H2 & Hne).
  apply socket_constant in H1. apply socket_constant in H2. congruence.
Qed.

Lemma epson_fixed name : ~ variesBetweenRuns (fun _ => epsonTrace) name.
Proof.
  intros (fuel1 & os1 & fuel2 & os2 & d1 & perm1 & e1 & d2 & perm2 & e2 & H1 & H2 & Hne).
  apply epson_written in H1. apply epson_written in H2.
  destruct H1 as [ [Hn1 Hd1] | [Hn1 Hd1] ]; destruct H2 as [ [Hn2 Hd2] | [Hn2 Hd2] ];
    try congruence; rewrite Hn1 in Hn2; discriminate Hn2.
Qed.

(** C7 as stated fails: the socket unit content is no template
    instantiated at run time, since no two runs of the ESC/POS installer
    write different socket unit contents. *)
Lemma C7_counterexample : ~ bothContentsInstantiated.
Proof. intros [Hsocket _]. exact (socket_fixed Hsocket). Qed.

(** C7, amended.  Only the service unit content of the ESC/POS installer
    is a template instantiated at run time: [serviceFileContent] formats
    one format string, which holds a single [%s], with the printer path,
    and the content written differs between runs.  The socket unit content
    is a string constant without any formatting verb and is written
    unchanged in every run; in the Epson installer both contents are
    constants. *)
Theorem C7_service_template_socket_constant :
  (forall printerPath,
     Sprintf (rawLines ["[Unit]"; "Description=ESC/POS Printer Service"; ""; "[Service]";
                        "ExecStart=-/usr/bin/tee /dev/null > %s"; "StandardInput=socket"])
       [AStr printerPath] = Escpos.serviceFileContent printerPath /\
     Escpos.serviceFileContent printerPath =
       rawLines ["[Unit]"; "Description=ESC/POS Printer Service"; ""; "[Service]"]
         ++ "ExecStart=-/usr/bin/tee /dev/null > " ++ printerPath
         ++ LF ++ "StandardInput=socket" ++ LF) /\
  variesBetweenRuns escposTrace Escpos.serviceFilePath /\
  ~ variesBetweenRuns escposTrace Escpos.socketFilePath /\
  (forall fuel os data perm err,
     In (WriteFile Escpos.socketFilePath data perm err) (escposTrace fuel os) ->
     data = Escpos.socketFileContent) /\
  String.index 0 "%" Escpos.socketFileContent = None /\
  ~ variesBetweenRuns (fun _ => epsonTrace) Epson.socketFilePath /\
  ~ variesBetweenRuns (fun _ => epsonTrace) Epson.serviceFilePath.
Proof.
  split; [intros p; split; reflexivity|].
  split; [exact service_varies|].
  split; [exact socket_fixed|].
  split; [exact socket_constant|].
  split; [reflexivity|].
  split; apply epson_fixed.
Qed.

(** The socket unit written on the test machine. *)
Lemma C7_service_template_socket_constant_witness :
  In (WriteFile Escpos.socketFilePath Escpos.socketFileContent perm0644 None)
    (escposTrace 5 demoOS) /\
  Escpos.socketFileContent =
    rawLines ["[Unit]"; "Description=ESC/POS Printer Socket"; ""; "[Socket]";
              "ListenStream=0.0.0.0:9100"; "Accept=yes"; ""; "[Install]";
              "WantedBy=sockets.target"].
Proof.
  split; [exact demo_socket_written|].
  destruct C7_service_template_socket_constant as (_ & _ & _ & H & _).
  symmetry.
  exact (H 5%nat demoOS _ perm0644 None demo_socket_written).
Defined.

(** C8.  The service unit is written under a template name,
    [<name>@.service], next to the socket unit [<name>.socket]; whatever
    the printer path, its content holds the line [StandardInput=socket],
    and the socket unit content holds the line [Accept=yes].  This holds
    for every file either installer writes. *)
Theorem C8_template_service_unit :
  Escpos.serviceFilePath = "/etc/systemd/system/" ++ "escpos-printer" ++ "@.service" /\
  Escpos.socketFilePath = "/etc/systemd/system/" ++ "escpos-printer" ++ ".socket" /\
  Epson.serviceFilePath = "/etc/systemd/system/" ++ "epson-printer" ++ "@.service" /\
  Epson.socketFilePath = "/etc/systemd/system/" ++ "epson-printer" ++ ".socket" /\
  (forall printerPath,
     In "StandardInput=socket" (lines (Escpos.serviceFileContent printerPath))) /\
  In "Accept=yes" (lines Escpos.socketFileContent) /\
  (forall fuel os name data perm err,
     In (WriteFile name data perm err) (escposTrace fuel os) ->
     (name = Escpos.socketFilePath /\ In "Accept=yes" (lines data)) \/
     (name = Escpos.serviceFilePath /\ In "StandardInput=socket" (lines data))) /\
  (forall os name data perm err,
     In (WriteFile name data perm err) (epsonTrace os) ->
     (name = Epson.socketFilePath /\ In "Accept=yes" (lines data)) \/
     (name = Epson.serviceFilePath /\ In "StandardInput=socket" (lines data))).
Proof.
  repeat split; try reflexivity.
  - apply serviceFileContent_lines.
  - simpl. tauto.
  - intros fuel os name data perm err Hin.
    destruct (escpos_written _ _ _ _ _ _ Hin) as [[-> ->]|[-> (sel & _ & ->)]].
    + left. split; [reflexivity|]. simpl. tauto.
    + right. split; [reflexivity|]. apply serviceFileContent_lines.
  - intros os name data perm err Hin.
    destruct (epson_written _ _ _ _ _ Hin) as [[-> ->]|[-> ->]].
    + left. split; [reflexivity|]. simpl. tauto.
    + right. split; [reflexivity|]. simpl. tauto.
Qed.

(** The service unit written on the test machine. *)
Lemma C8_template_service_unit_witness :
  In (WriteFile Escpos.serviceFilePath (Escpos.serviceFileContent "/dev/usb/lp1")
        perm0644 None)
    (escposTrace 5 demoOS) /\
  ((Escpos.serviceFilePath = Escpos.socketFilePath /\
    In "Accept=yes" (lines (Escpos.serviceFileContent "/dev/usb/lp1"))) \/
   (Escpos.serviceFilePath = Escpos.serviceFilePath /\
    In "StandardInput=socket" (lines (Escpos.serviceFileContent "/dev/usb/lp1")))).
Proof.
  split; [exact demo_service_written|].
  destruct C8_template_service_unit as (_ & _ & _ & _ & _ & _ & H & _).
  exact (H 5%nat demoOS _ _ perm0644 None demo_service_written).
Defined.

Lemma stat_events_filter (f : Event -> bool) (names : list string) :
  f = isWrite \/ f = isExec \/ f = isScan ->
  filter f (map Stat names) = [].
Proof.
  intros Hf. induction names as [|m rest IH]; [reflexivity|].
  simpl. destruct Hf as [ -> | [ -> | -> ] ]; simpl; apply IH.
Qed.

(** C9.  On the empty list [selectPrinter] returns its error at once,
    leaving the state as it was: no prompt is printed and nothing is read.
    When root runs the installer and discovery yields no printer, [main]
    logs that error and exits with status 1 right after discovery: no
    [Scanln], no write and no command take place. *)
Theorem C9_no_printer_no_install (fuel : nat) (os : OS) (matches : list string) :
  euid os = 0 ->
  globResult os "/dev/usb/lp*" = Ok matches ->
  filter (charDeviceAt os) matches = [] ->
  (forall fuel' os' s,
     Escpos.selectPrinter fuel' [] os' s =
       (Done (Err "no se encontraron impresoras USB en /dev/usb/lpX"), s)) /\
  run (Escpos.main fuel) os =
    (Exit 1,
     {| trace :=
          [Stdout ("Iniciando la configuración del servicio de impresora ESC/POS..." ++ LF);
           Geteuid;
           Stdout ("✓ Permisos de root confirmados." ++ LF);
           Glob "/dev/usb/lp*"]
          ++ map Stat matches
          ++ [Stdout ("0" ++ LF);
              LogFatal "Error: no se encontraron impresoras USB en /dev/usb/lpX"];
        nscan := 0 |}) /\
  writesOf (escposTrace fuel os) = [] /\
  execsOf (escposTrace fuel os) = [] /\
  filter isScan (escposTrace fuel os) = [].
Proof.
  intros Huid Hglob Hnone.
  assert (Hrun : run (Escpos.main fuel) os =
    (Exit 1,
     {| trace :=
          [Stdout ("Iniciando la configuración del servicio de impresora ESC/POS..." ++ LF);
           Geteuid;
           Stdout ("✓ Permisos de root confirmados." ++ LF);
           Glob "/dev/usb/lp*"]
          ++ map Stat matches
          ++ [Stdout ("0" ++ LF);
              LogFatal "Error: no se encontraron impresoras USB en /dev/usb/lpX"];
        nscan := 0 |})).
  { rewrite escpos_main_run, Huid, Hglob. simpl negb. cbv iota.
    unfold EscposTrace.discovery, EscposTrace.discovered. rewrite Hnone.
    rewrite selectPrinter_empty. unfold record. cbn [trace nscan map].
    f_equal. f_equal. unfold EscposTrace.greeting. simpl.
    rewrite <- !app_assoc. reflexivity. }
  split; [intros fuel' os' s; apply selectPrinter_empty|].
  split; [exact Hrun|].
  unfold escposTrace. rewrite Hrun. cbn [snd trace].
  unfold writesOf, execsOf. rewrite !filter_app.
  rewrite !stat_events_filter by auto. simpl. auto.
Qed.

Lemma C9_no_printer_no_install_witness :
  fst (run (Escpos.main 3) noPrinterOS) = Exit 1 /\
  writesOf (escposTrace 3 noPrinterOS) = [].
Proof.
  destruct (C9_no_printer_no_install 3 noPrinterOS ["/dev/usb/lpx"] eq_refl eq_refl eq_refl)
    as (_ & Hrun & Hw & _).
  rewrite Hrun. auto.
Defined.

(** C10.  The data written to the socket unit file is the same in any two
    runs of the ESC/POS installer, whatever is discovered, selected or
    typed.  The data written to the service unit file is the fixed text
    with the selected printer path put as it is, without quoting, at the
    end of the [ExecStart] line: two runs that select the same printer
    write the same data, different paths give different data, and there
    are runs that differ in it. *)
Theorem C10_socket_fixed_service_by_printer :
  (forall fuel1 os1 fuel2 os2 d1 perm1 e1 d2 perm2 e2,
     In (WriteFile Escpos.socketFilePath d1 perm1 e1) (escposTrace fuel1 os1) ->
     In (WriteFile Escpos.socketFilePath d2 perm2 e2) (escposTrace fuel2 os2) ->
     d1 = d2) /\
  (forall fuel os data perm err,
     In (WriteFile Escpos.serviceFilePath data perm err) (escposTrace fuel os) ->
     exists selectedPrinter,
       selects fuel os selectedPrinter /\
       data =
         rawLines ["[Unit]"; "Description=ESC/POS Printer Service"; ""; "[Service]"]
           ++ "ExecStart=-/usr/bin/tee /dev/null > " ++ selectedPrinter
           ++ LF ++ "StandardInput=socket" ++ LF) /\
  (forall fuel1 os1 fuel2 os2 selectedPrinter d1 perm1 e1 d2 perm2 e2,
     selects fuel1 os1 selectedPrinter ->
     selects fuel2 os2 selectedPrinter ->
     In (WriteFile Escpos.serviceFilePath d1 perm1 e1) (escposTrace fuel1 os1) ->
     In (WriteFile Escpos.serviceFilePath d2 perm2 e2) (escposTrace fuel2 os2) ->
     d1 = d2) /\
  (forall p q, Escpos.serviceFileContent p = Escpos.serviceFileContent q -> p = q) /\
  variesBetweenRuns escposTrace Escpos.serviceFilePath.
Proof.
  split; [|split; [|split; [|split]]].
  - intros fuel1 os1 fuel2 os2 d1 perm1 e1 d2 perm2 e2 H1 H2.
    apply socket_constant in H1. apply socket_constant in H2. congruence.
  - intros fuel os data perm err Hin.
    destruct (service_formatted _ _ _ _ _ Hin) as (sel & Hsel & ->).
    exists sel. split; [exact Hsel|]. apply serviceFileContent_eq.
  - intros fuel1 os1 fuel2 os2 sel d1 perm1 e1 d2 perm2 e2 Hs1 Hs2 H1 H2.
    destruct (service_formatted _ _ _ _ _ H1) as (p1 & Hp1 & ->).
    destruct (service_formatted _ _ _ _ _ H2) as (p2 & Hp2 & ->).
    rewrite (selects_unique _ _ _ _ Hp1 Hs1), (selects_unique _ _ _ _ Hp2 Hs2).
    reflexivity.
  - exact serviceFileContent_inj.
  - exact service_varies.
Qed.

(** The test machine with the user typing 7 then 2, and typing 1. *)
Lemma C10_socket_fixed_service_by_printer_witness :
  In (WriteFile Escpos.socketFilePath Escpos.socketFileContent perm0644 None)
    (escposTrace 5 demoOS) /\
  In (WriteFile Escpos.socketFilePath Escpos.socketFileContent perm0644 None)
    (escposTrace 5 firstChoiceOS) /\
  Escpos.socketFileContent = Escpos.socketFileContent /\
  exists selectedPrinter,
    selects 5 demoOS selectedPrinter /\
    Escpos.serviceFileContent "/dev/usb/lp1" =
      rawLines ["[Unit]"; "Description=ESC/POS Printer Service"; ""; "[Service]"]
        ++ "ExecStart=-/usr/bin/tee /dev/null > " ++ selectedPrinter
        ++ LF ++ "StandardInput=socket" ++ LF.
Proof.
  destruct C10_socket_fixed_service_by_printer as (Hsock & Hserv & _).
  split; [exact demo_socket_written|].
  split; [exact firstChoice_socket_written|].
  split.
  - exact (Hsock 5%nat demoOS 5%nat firstChoiceOS _ perm0644 None _ perm0644 None
             demo_socket_written firstChoice_socket_written).
  - exact (Hserv 5%nat demoOS _ perm0644 None demo_service_written).
Defined.

(** * Further properties of the code *)

(** ** [selectPrinter] on every input *)

(** A loop that is given only rejected inputs uses all its fuel. *)
Lemma loop_exhausts (printers : list string) os (fuel : nat) :
  forall choice s,
    (forall j, (j < fuel)%nat -> accepted printers (scanResult os (nscan s + j)) = false) ->
    Escpos.selectPrinter_loop fuel printers choice os s =
      (OutOfFuel,
       {| trace := trace s ++ rejections os (nscan s) fuel;
          nscan := (nscan s + fuel)%nat |}).
Proof.
  induction fuel as [|fuel IH]; intros choice s Hrej.
  - simpl. unfold outOfFuel. rewrite app_nil_r, Nat.add_0_r. now destruct s.
  - destruct (loop_rejected fuel printers choice os s) as [choice' ->].
    { specialize (Hrej 0%nat). rewrite Nat.add_0_r in Hrej. apply Hrej. lia. }
    rewrite IH; cbn [trace nscan].
    + rewrite <- app_assoc, <- plus_n_Sm. reflexivity.
    + intros j Hj. specialize (Hrej (S j)). rewrite <- plus_n_Sm in Hrej.
      apply Hrej. lia.
Qed.

Lemma firstAccepted_some (printers : list string) os (fuel : nat) : forall start n,
  firstAccepted printers os start fuel = Some n ->
  (n < fuel)%nat /\
  (forall j, (j < n)%nat -> accepted printers (scanResult os (start + j)) = false) /\
  accepted printers (scanResult os (start + n)) = true.
Proof.
  induction fuel as [|fuel IH]; intros start n H; simpl in H; [discriminate|].
  destruct (accepted printers (scanResult os start)) eqn:Hacc.
  - injection H as <-. rewrite Nat.add_0_r. repeat split; [lia| |exact Hacc].
    intros j Hj. lia.
  - destruct (firstAccepted printers os (S start) fuel) as [m|] eqn:Hm; [|discriminate].
    injection H as <-. destruct (IH (S start) m Hm) as (Hlt & Hrej & Hok).
    repeat split; [lia| |].
    + intros [|j] Hj; [now rewrite Nat.add_0_r|].
      rewrite <- plus_n_Sm. apply Hrej. lia.
    + now rewrite <- plus_n_Sm.
Qed.

Lemma firstAccepted_none (printers : list string) os (fuel : nat) : forall start,
  firstAccepted printers os start fuel = None ->
  forall j, (j < fuel)%nat -> accepted printers (scanResult os (start + j)) = false.
Proof.
  induction fuel as [|fuel IH]; intros start H j Hj; [lia|]. simpl in H.
  destruct (accepted printers (scanResult os start)) eqn:Hacc; [discriminate|].
  destruct (firstAccepted printers os (S start) fuel) as [m|] eqn:Hm; [discriminate|].
  destruct j as [|j]; [now rewrite Nat.add_0_r|].
  rewrite <- plus_n_Sm. apply (IH (S start) Hm). lia.
Qed.

Lemma firstAccepted_found (printers : list string) os (n : nat) : forall fuel start,
  (forall j, (j < n)%nat -> accepted printers (scanResult os (start + j)) = false) ->
  accepted printers (scanResult os (start + n)) = true ->
  (n < fuel)%nat ->
  firstAccepted printers os start fuel = Some n.
Proof.
  induction n as [|n IH]; intros fuel start Hrej Hacc Hfuel;
    (destruct fuel as [|fuel]; [lia|]); simpl.
  - rewrite Nat.add_0_r in Hacc. now rewrite Hacc.
  - assert (H0 : accepted printers (scanResult os start) = false).
    { specialize (Hrej 0%nat). rewrite Nat.add_0_r in Hrej. apply Hrej. lia. }
    rewrite H0. rewrite (IH fuel (S start)); [reflexivity| | |lia].
    + intros j Hj. specialize (Hrej (S j)). rewrite <- plus_n_Sm in Hrej. apply Hrej. lia.
    + now rewrite <- plus_n_Sm in Hacc.
Qed.

(** What [selectPrinter] does on a list that is not empty, for every
    input and every bound on the loop. *)
Lemma selectPrinter_total (fuel : nat) (printers : list string) os s :
  printers <> [] ->
  match firstAccepted printers os (nscan s) fuel with
  | Some n =>
      exists k p,
        scanResult os (nscan s + n) = ScanOk k /\
        1 <= k <= len printers /\
        nth_error printers (Z.to_nat (k - 1)) = Some p /\
        Escpos.selectPrinter fuel printers os s =
          (Done (Ok p),
           {| trace := trace s ++ Stdout headerText :: numberedFrom 1 printers
                         ++ rejections os (nscan s) n
                         ++ [Stdout promptText; Scanln (ScanOk k)];
              nscan := S (nscan s + n) |})
  | None =>
      Escpos.selectPrinter fuel printers os s =
        (OutOfFuel,
         {| trace := trace s ++ Stdout headerText :: numberedFrom 1 printers
                       ++ rejections os (nscan s) fuel;
            nscan := (nscan s + fuel)%nat |})
  end.
Proof.
  intros Hne. destruct (firstAccepted printers os (nscan s) fuel) as [n|] eqn:Hfirst.
  - destruct (firstAccepted_some printers os fuel (nscan s) n Hfirst) as (Hlt & Hrej & Hacc).
    destruct (scanResult os (nscan s + n)) as [k|stored e] eqn:Hscan; [|discriminate].
    assert (Hk : 1 <= k <= len printers).
    { simpl in Hacc. apply andb_true_iff in Hacc. lia. }
    destruct (selectPrinter_run fuel n printers k os s Hne Hrej Hscan Hk Hlt)
      as (p & Hnth & Hrun).
    exists k, p. auto.
  - rewrite (selectPrinter_nonempty fuel printers os s Hne).
    unfold bind at 1.
    rewrite loop_exhausts.
    + unfold record. cbn [trace nscan]. rewrite <- app_assoc. reflexivity.
    + intros j Hj. apply (firstAccepted_none printers os fuel (nscan s) Hfirst j Hj).
Qed.

(** X1.  [selectPrinter] never indexes the list out of range and never
    ends the program: it returns a printer of the list, or its error when
    (and only when) the list is empty, or is still waiting for a valid
    input. *)
Theorem X1_selectPrinter_stays_in_range (fuel : nat) (printers : list string)
    (os : OS) (s : State) :
  match fst (Escpos.selectPrinter fuel printers os s) with
  | Done (Ok p) => In p printers
  | Done (Err e) =>
      printers = [] /\ e = "no se encontraron impresoras USB en /dev/usb/lpX"
  | OutOfFuel => printers <> []
  | Exit _ => False
  | Panic _ => False
  end.
Proof.
  destruct printers as [|p0 rest] eqn:Hp.
  - rewrite selectPrinter_empty. simpl. auto.
  - rewrite <- Hp. assert (Hne : printers <> []) by congruence.
    pose proof (selectPrinter_total fuel printers os s Hne) as H.
    destruct (firstAccepted printers os (nscan s) fuel) as [n|].
    + destruct H as (k & p & _ & _ & Hnth & ->). simpl.
      eapply nth_error_In; eauto.
    + rewrite H. simpl. exact Hne.
Qed.

(** X2.  When [selectPrinter] returns a printer, it is the one at the
    position given by the first input that scanned without error to a
    number between 1 and [len(printers)]; every input before it was
    rejected and answered by the invalid-input line and a new prompt, and
    no input after it was read.  An input whose scan returned an error is
    never used, whatever number it stored. *)
Theorem X2_selectPrinter_returns_only_valid_choice (fuel : nat) (printers : list string)
    (os : OS) (s s' : State) (p : string) :
  Escpos.selectPrinter fuel printers os s = (Done (Ok p), s') ->
  exists n k,
    (n < fuel)%nat /\
    (forall j, (j < n)%nat -> accepted printers (scanResult os (nscan s + j)) = false) /\
    scanResult os (nscan s + n) = ScanOk k /\
    1 <= k <= len printers /\
    nth_error printers (Z.to_nat (k - 1)) = Some p /\
    nscan s' = S (nscan s + n) /\
    trace s' =
      (trace s ++ Stdout headerText :: numberedFrom 1 printers
         ++ rejections os (nscan s) n
         ++ [Stdout promptText; Scanln (ScanOk k)])%list.
Proof.
  intros Hrun.
  destruct printers as [|p0 rest] eqn:Hp.
  - rewrite selectPrinter_empty in Hrun. discriminate.
  - rewrite <- Hp in *. assert (Hne : printers <> []) by congruence.
    pose proof (selectPrinter_total fuel printers os s Hne) as H.
    destruct (firstAccepted printers os (nscan s) fuel) as [n|] eqn:Hfirst.
    + destruct H as (k & q & Hscan & Hk & Hnth & Hrun').
      destruct (firstAccepted_some printers os fuel (nscan s) n Hfirst) as (Hlt & Hrej & _).
      rewrite Hrun' in Hrun. injection Hrun as <- <-.
      exists n, k. repeat split; auto; lia.
    + rewrite H in Hrun. discriminate.
Qed.

Lemma X2_selectPrinter_returns_only_valid_choice_witness :
  exists n k,
    scanResult demoOS n = ScanOk k /\
    nth_error ["/dev/usb/lp0"; "/dev/usb/lp1"] (Z.to_nat (k - 1)) = Some "/dev/usb/lp1".
Proof.
  destruct (X2_selectPrinter_returns_only_valid_choice 3 ["/dev/usb/lp0"; "/dev/usb/lp1"]
              demoOS initial
              (snd (Escpos.selectPrinter 3 ["/dev/usb/lp0"; "/dev/usb/lp1"] demoOS initial))
              "/dev/usb/lp1" eq_refl)
    as (n & k & _ & _ & Hscan & _ & Hnth & _).
  exists n, k. auto.
Defined.

(** ** The ESC/POS installer on every machine *)

(** The run of [Escpos.main] for root on a machine where the glob succeeds
    and discovery finds a printer. *)
Lemma escpos_run_total (fuel : nat) os (matches : list string) :
  euid os = 0 ->
  globResult os "/dev/usb/lp*" = Ok matches ->
  EscposTrace.discovered os matches <> [] ->
  match firstAccepted (EscposTrace.discovered os matches) os 0 fuel with
  | Some n =>
      exists k selectedPrinter,
        scanResult os n = ScanOk k /\
        1 <= k <= len (EscposTrace.discovered os matches) /\
        nth_error (EscposTrace.discovered os matches) (Z.to_nat (k - 1))
          = Some selectedPrinter /\
        run (Escpos.main fuel) os =
          (provisionOutcome (EscposTrace.script selectedPrinter) os,
           {| trace :=
                (EscposTrace.greeting ++ EscposTrace.discovery os matches)
                  ++ (Stdout headerText
                        :: numberedFrom 1 (EscposTrace.discovered os matches)
                        ++ rejections os 0 n
                        ++ [Stdout promptText; Scanln (ScanOk k)])
                  ++ EscposTrace.selectedLine selectedPrinter
                  :: provisionEvents (EscposTrace.script selectedPrinter) os;
              nscan := S n |})
  | None =>
      run (Escpos.main fuel) os =
        (OutOfFuel,
         {| trace :=
              (EscposTrace.greeting ++ EscposTrace.discovery os matches)
                ++ Stdout headerText
                :: numberedFrom 1 (EscposTrace.discovered os matches)
                ++ rejections os 0 fuel;
            nscan := fuel |})
  end.
Proof.
  intros Huid Hglob Hne.
  rewrite escpos_main_run, Huid, Hglob. simpl negb. cbv iota.
  set (s0 := {| trace := (EscposTrace.greeting ++ EscposTrace.discovery os matches)%list;
                nscan := 0 |}).
  pose proof (selectPrinter_total fuel (EscposTrace.discovered os matches) os s0 Hne) as H.
  change (nscan s0) with 0%nat in H.
  destruct (firstAccepted (EscposTrace.discovered os matches) os 0 fuel) as [n|].
  - destruct H as (k & sel & Hscan & Hk & Hnth & ->).
    exists k, sel. split; [exact Hscan|]. split; [exact Hk|]. split; [exact Hnth|].
    unfold record, s0. cbn [trace nscan]. rewrite <- !app_assoc. reflexivity.
  - rewrite H. unfold s0. cbn [trace nscan]. rewrite <- !app_assoc. reflexivity.
Qed.

Lemma selects_discovered fuel os selectedPrinter :
  selects fuel os selectedPrinter ->
  exists matches,
    globResult os "/dev/usb/lp*" = Ok matches /\
    In selectedPrinter matches /\
    charDeviceAt os selectedPrinter = true.
Proof.
  intros (matches & _ & Hglob & Hsel).
  exists matches. split; [exact Hglob|].
  destruct (selectPrinter_quiet fuel (EscposTrace.discovered os matches) os
              {| trace := (EscposTrace.greeting ++ EscposTrace.discovery os matches)%list;
                 nscan := 0 |}) as (o & evs & n & Hrun & _ & Ho).
  rewrite Hrun in Hsel. simpl in Hsel. subst o. apply filter_In in Ho. exact Ho.
Qed.

Lemma escpos_cases (fuel : nat) os :
  EscposRun fuel os (fst (run (Escpos.main fuel) os)) (snd (run (Escpos.main fuel) os)).
Proof.
  destruct (Z.eq_dec (euid os) 0) as [Huid|Huid].
  2:{ rewrite escpos_main_run. apply Z.eqb_neq in Huid as Hb. rewrite Hb.
      simpl. now constructor. }
  destruct (globResult os "/dev/usb/lp*") as [matches|e] eqn:Hglob.
  2:{ rewrite escpos_main_run, Huid, Hglob. simpl. now apply RunGlobError. }
  destruct (EscposTrace.discovered os matches) as [|p0 rest] eqn:Hdisc.
  { rewrite escpos_main_run, Huid, Hglob, Hdisc, selectPrinter_empty. simpl negb.
    cbv iota. unfold record. cbn [fst snd trace nscan].
    apply RunNoPrinter; assumption. }
  assert (Hne : EscposTrace.discovered os matches <> []) by congruence.
  pose proof (escpos_run_total fuel os matches Huid Hglob Hne) as H.
  destruct (firstAccepted (EscposTrace.discovered os matches) os 0 fuel) as [n|] eqn:Hfirst.
  - destruct H as (k & sel & Hscan & Hk & Hnth & ->). cbn [fst snd].
    eapply RunSelected; eauto.
  - rewrite H. cbn [fst snd]. now apply RunWaiting.
Qed.

(** ** More on the run from the first write on *)

Section ProvisionMore.

Variable x : Script.
Variable os : OS.

Lemma commandEvents_all_ok (cmds : list (list string)) :
  allSucceed os cmds = true ->
  commandEvents (announce x) (success x) (failure x) os cmds = flat_map (commandSucceeded x os) cmds.
Proof.
  unfold allSucceed. induction cmds as [|c rest IH]; simpl; [reflexivity|].
  intros H. apply andb_true_iff in H. destruct H as [Hc Hrest].
  destruct (commandResult os c) as [output [e|]]; [discriminate|].
  simpl. now rewrite IH.
Qed.

Lemma commandEvents_fails (cmds : list (list string)) :
  allSucceed os cmds = false ->
  exists pre c output e,
    In c cmds /\
    commandResult os c = (output, Some e) /\
    commandEvents (announce x) (success x) (failure x) os cmds
      = (pre ++ [LogFatal (failure x c e output)])%list /\
    filter isFatal pre = [].
Proof.
  unfold allSucceed. induction cmds as [|c rest IH]; simpl; [discriminate|].
  intros H. destruct (commandResult os c) as [output [e|]] eqn:Hc.
  - exists [Stdout (announce x c); Exec c output (Some e)], c, output, e. auto.
  - simpl in H. destruct (IH H) as (pre & c' & output' & e' & Hin & Hres & -> & Hpre).
    exists ([Stdout (announce x c); Exec c output None; Stdout (success x)] ++ pre)%list,
      c', output', e'.
    repeat split; auto.
Qed.

Lemma commandEvents_no_fatal (cmds : list (list string)) :
  allSucceed os cmds = true ->
  filter isFatal (commandEvents (announce x) (success x) (failure x) os cmds) = [].
Proof.
  intros H. rewrite (commandEvents_all_ok cmds H). clear H.
  induction cmds as [|c rest IH]; simpl; auto.
Qed.

Lemma commandEvents_no_input (cmds : list (list string)) :
  filter (fun e => isScan e || isDiscovery e)
    (commandEvents (announce x) (success x) (failure x) os cmds) = [].
Proof.
  induction cmds as [|c rest IH]; simpl; [reflexivity|].
  destruct (commandResult os c) as [output [e|]]; simpl; auto.
Qed.

Lemma stdout_no_fatal (texts : list string) : filter isFatal (map Stdout texts) = [].
Proof. induction texts; simpl; auto. Qed.

Lemma stdout_no_input (texts : list string) :
  filter (fun e => isScan e || isDiscovery e) (map Stdout texts) = [].
Proof. induction texts; simpl; auto. Qed.

(** From the first write on nothing is read, globbed or stat'ed. *)
Lemma provision_no_input :
  filter (fun e => isScan e || isDiscovery e) (provisionEvents x os) = [].
Proof.
  unfold provisionEvents, commandPhase. rewrite filter_app.
  replace (filter _ (if writesSucceed x os then _ else [])) with (@nil Event).
  - rewrite app_nil_r.
    destruct (writePhase_cases x os)
      as [(e1 & _ & _ & ->)|[(e1 & _ & _ & _ & ->)|(_ & _ & _ & ->)]]; reflexivity.
  - destruct (writesSucceed x os); [|reflexivity].
    rewrite filter_app, commandEvents_no_input.
    destruct (allSucceed os (cmds x)); [|reflexivity].
    now rewrite stdout_no_input.
Qed.

(** A run that completes: both writes, every command, the closing lines. *)
Lemma provision_done :
  provisionOutcome x os = Done tt ->
  socketWrite x os = None /\
  serviceWrite x os = None /\
  allSucceed os (cmds x) = true /\
  provisionEvents x os =
    ([WriteFile (socketPath x) (socketData x) perm0644 None;
      Stdout (socketCreated x);
      WriteFile (servicePath x) (serviceData x) perm0644 None;
      Stdout (serviceCreated x)]
       ++ flat_map (commandSucceeded x os) (cmds x) ++ map Stdout (farewell x))%list.
Proof.
  unfold provisionOutcome, provisionEvents, commandPhase.
  destruct (writePhase_cases x os)
    as [(e1 & _ & -> & _)|[(e1 & _ & _ & -> & _)|(Hs & Hv & -> & ->)]];
    try discriminate.
  simpl andb. destruct (allSucceed os (cmds x)) eqn:Hall; [|discriminate].
  intros _. rewrite (commandEvents_all_ok _ Hall). auto.
Qed.

(** A run that fails: the fatal log line is its last event and the only
    one of its kind. *)
Lemma provision_exit :
  provisionOutcome x os = Exit 1 ->
  exists pre text,
    provisionEvents x os = (pre ++ [LogFatal text])%list /\ filter isFatal pre = [].
Proof.
  unfold provisionOutcome, provisionEvents, commandPhase.
  destruct (writePhase_cases x os)
    as [(e1 & _ & -> & ->)|[(e1 & _ & _ & -> & ->)|(Hs & Hv & -> & ->)]].
  - intros _. exists [WriteFile (socketPath x) (socketData x) perm0644 (Some e1)],
      (socketFailed x e1). auto.
  - intros _.
    exists [WriteFile (socketPath x) (socketData x) perm0644 None;
            Stdout (socketCreated x);
            WriteFile (servicePath x) (serviceData x) perm0644 (Some e1)],
      (serviceFailed x e1). auto.
  - simpl andb. destruct (allSucceed os (cmds x)) eqn:Hall; [discriminate|].
    intros _. destruct (commandEvents_fails _ Hall) as (pre & c & output & e & _ & _ & -> & Hpre).
    exists ([WriteFile (socketPath x) (socketData x) perm0644 None;
             Stdout (socketCreated x);
             WriteFile (servicePath x) (serviceData x) perm0644 None;
             Stdout (serviceCreated x)] ++ pre)%list, (failure x c e output).
    rewrite app_nil_r, <- app_assoc. split; [reflexivity|].
    rewrite filter_app, Hpre. reflexivity.
Qed.

Lemma provisionOutcome_cases :
  provisionOutcome x os = Done tt \/ provisionOutcome x os = Exit 1.
Proof. unfold provisionOutcome. destruct (_ && _); auto. Qed.

End ProvisionMore.

(** ** Failed discovery *)

(** X3.  When the glob call fails, [findPrinters] stats nothing and returns
    the error wrapped after [error al buscar impresoras: ]; for root,
    [main] logs it after [Error: ] and exits with status 1 without
    prompting, writing or running anything. *)
Theorem X3_glob_error_is_fatal (fuel : nat) (os : OS) (s : State) (e : error) :
  globResult os "/dev/usb/lp*" = Err e ->
  Escpos.findPrinters os s =
    (Done (Err ("error al buscar impresoras: " ++ e)), record s [Glob "/dev/usb/lp*"]) /\
  (euid os = 0 ->
   run (Escpos.main fuel) os =
     (Exit 1,
      {| trace :=
           [Stdout ("Iniciando la configuración del servicio de impresora ESC/POS..." ++ LF);
            Geteuid;
            Stdout ("✓ Permisos de root confirmados." ++ LF);
            Glob "/dev/usb/lp*";
            LogFatal ("Error: error al buscar impresoras: " ++ e)];
         nscan := 0 |})).
Proof.
  intros Hglob. split.
  - rewrite findPrinters_run, Hglob. reflexivity.
  - intros Huid. rewrite escpos_main_run, Huid, Hglob. reflexivity.
Qed.

Lemma X3_glob_error_is_fatal_witness :
  fst (Escpos.findPrinters globFailsOS initial)
    = Done (Err "error al buscar impresoras: syntax error in pattern") /\
  fst (run (Escpos.main 3) globFailsOS) = Exit 1.
Proof.
  destruct (X3_glob_error_is_fatal 3 globFailsOS initial "syntax error in pattern" eq_refl)
    as [Hfind Hmain].
  rewrite Hfind, (Hmain eq_refl). auto.
Defined.

(** ** Termination *)

Lemma firstAccepted_all_rejected (printers : list string) os (start fuel : nat) :
  (forall j, (j < fuel)%nat -> accepted printers (scanResult os (start + j)) = false) ->
  firstAccepted printers os start fuel = None.
Proof.
  intros Hrej. destruct (firstAccepted printers os start fuel) as [n|] eqn:H; [|reflexivity].
  destruct (firstAccepted_some printers os fuel start n H) as (Hlt & _ & Hacc).
  rewrite (Hrej n Hlt) in Hacc. discriminate.
Qed.

(** X4.  A run of the ESC/POS installer ends by returning from [main] or
    by [os.Exit(1)], never by a panic or another status, unless it is still
    at the prompt: it is at the prompt after [fuel] inputs exactly when
    root runs it, discovery found a printer and every one of these inputs
    was rejected.  The selection loop is the only place where the program
    can go on for ever. *)
Theorem X4_escpos_stops_except_at_prompt (fuel : nat) (os : OS) :
  (fst (run (Escpos.main fuel) os) = Done tt \/
   fst (run (Escpos.main fuel) os) = Exit 1 \/
   fst (run (Escpos.main fuel) os) = OutOfFuel) /\
  (fst (run (Escpos.main fuel) os) = OutOfFuel <->
   euid os = 0 /\
   exists matches,
     globResult os "/dev/usb/lp*" = Ok matches /\
     filter (charDeviceAt os) matches <> [] /\
     forall j, (j < fuel)%nat ->
       accepted (filter (charDeviceAt os) matches) (scanResult os j) = false).
Proof.
  pose proof (escpos_cases fuel os) as Hcase.
  destruct Hcase as [Huid|e Huid Hglob|matches Huid Hglob Hnone
                    |matches Huid Hglob Hsome Hfirst
                    |matches n k sel Huid Hglob Hfirst Hscan Hk Hnth].
  - split; [auto|]. split; [discriminate|]. intros [H _]. contradiction.
  - split; [auto|]. split; [discriminate|].
    intros (_ & matches & H & _). congruence.
  - split; [auto|]. split; [discriminate|].
    intros (_ & matches' & H & Hne & _). rewrite Hglob in H. injection H as <-.
    contradiction.
  - split; [auto|]. split; [|reflexivity]. intros _. split; [exact Huid|].
    exists matches. split; [exact Hglob|]. split; [exact Hsome|].
    intros j Hj.
    apply (firstAccepted_none _ os fuel 0 Hfirst j Hj).
  - split.
    + destruct (provisionOutcome_cases (EscposTrace.script sel) os) as [-> | ->]; auto.
    + split.
      * destruct (provisionOutcome_cases (EscposTrace.script sel) os) as [-> | ->];
          discriminate.
      * intros (_ & matches' & H & _ & Hrej). exfalso.
        rewrite Hglob in H. injection H as <-.
        unfold EscposTrace.discovered in Hfirst.
        rewrite (firstAccepted_all_rejected _ os 0 fuel Hrej) in Hfirst. discriminate.
Qed.

(** ** What is read, and when *)

Lemma discovery_no_scan os matches r : ~ In (Scanln r) (EscposTrace.discovery os matches).
Proof.
  unfold EscposTrace.discovery. intros [H|H]; [discriminate|].
  apply in_app_or in H. destruct H as [H|[H|H]]; try discriminate.
  - apply in_map_iff in H. destruct H as (m & H & _). discriminate.
  - apply in_map_iff in H. destruct H as (m & H & _). discriminate.
Qed.

(** X5.  The ESC/POS installer reads standard input only when root runs
    it and discovery has found at least one printer. *)
Theorem X5_reads_only_with_printers (fuel : nat) (os : OS) (r : ScanResult) :
  In (Scanln r) (escposTrace fuel os) ->
  euid os = 0 /\
  exists matches,
    globResult os "/dev/usb/lp*" = Ok matches /\
    filter (charDeviceAt os) matches <> [].
Proof.
  unfold escposTrace.
  pose proof (escpos_cases fuel os) as Hcase.
  destruct Hcase as [Huid|e Huid Hglob|matches Huid Hglob Hnone
                    |matches Huid Hglob Hsome Hfirst
                    |matches n k sel Huid Hglob Hfirst Hscan Hk Hnth]; cbn [trace]; intros Hin.
  - simpl in Hin. repeat (destruct Hin as [Hin|Hin]; [discriminate|]). contradiction.
  - simpl in Hin. repeat (destruct Hin as [Hin|Hin]; [discriminate|]). contradiction.
  - exfalso. apply in_app_or in Hin. destruct Hin as [Hin|Hin].
    + apply in_app_or in Hin. destruct Hin as [Hin|Hin].
      * simpl in Hin. repeat (destruct Hin as [Hin|Hin]; [discriminate|]). contradiction.
      * exact (discovery_no_scan os matches r Hin).
    + simpl in Hin. destruct Hin as [Hin|Hin]; [discriminate|contradiction].
  - split; [exact Huid|]. exists matches. auto.
  - split; [exact Huid|]. exists matches. split; [exact Hglob|].
    unfold EscposTrace.discovered in Hnth. intros Hnil. rewrite Hnil in Hnth.
    destruct (Z.to_nat (k - 1)); discriminate.
Qed.

Lemma X5_reads_only_with_printers_witness :
  In (Scanln (ScanOk 7)) (escposTrace 5 demoOS) /\
  exists matches,
    globResult demoOS "/dev/usb/lp*" = Ok matches /\
    filter (charDeviceAt demoOS) matches <> [].
Proof.
  assert (Hin : In (Scanln (ScanOk 7)) (escposTrace 5 demoOS)).
  { vm_compute. repeat (first [left; reflexivity | right]). }
  split; [exact Hin|].
  exact (proj2 (X5_reads_only_with_printers 5 demoOS (ScanOk 7) Hin)).
Defined.

(** X6.  Whatever the user types, the device path the ESC/POS installer
    puts in the service unit is one of the glob matches whose stat
    succeeded with the character-device bit set. *)
Theorem X6_service_targets_discovered_device (fuel : nat) (os : OS)
    (data : string) (perm : Z) (err : option error) :
  In (WriteFile Escpos.serviceFilePath data perm err) (escposTrace fuel os) ->
  exists matches printerPath info,
    globResult os "/dev/usb/lp*" = Ok matches /\
    In printerPath matches /\
    statResult os printerPath = Ok info /\
    Z.testbit (Mode info) 21 = true /\
    data = Escpos.serviceFileContent printerPath.
Proof.
  intros Hin. destruct (service_formatted _ _ _ _ _ Hin) as (sel & Hsel & ->).
  destruct (selects_discovered _ _ _ Hsel) as (matches & Hglob & Hmatch & Hchar).
  unfold charDeviceAt in Hchar.
  destruct (statResult os sel) as [info|e] eqn:Hstat; [|discriminate].
  exists matches, sel, info. auto.
Qed.

Lemma X6_service_targets_discovered_device_witness :
  exists matches printerPath,
    globResult demoOS "/dev/usb/lp*" = Ok matches /\
    In printerPath matches /\
    Escpos.serviceFileContent "/dev/usb/lp1" = Escpos.serviceFileContent printerPath.
Proof.
  destruct (X6_service_targets_discovered_device 5 demoOS _ perm0644 None
              demo_service_written) as (matches & p & info & Hglob & Hin & _ & _ & Hdata).
  exists matches, p. auto.
Defined.

(** ** The writes *)

(** X7.  Every file either installer writes is written with mode 0644. *)
Theorem X7_unit_files_mode_0644 (fuel : nat) (os : OS)
    (name data : string) (perm : Z) (err : option error) :
  In (WriteFile name data perm err) (escposTrace fuel os) \/
  In (WriteFile name data perm err) (epsonTrace os) ->
  perm = 420.
Proof.
  intros [Hin|Hin].
  - destruct (escpos_shape fuel os) as [Hstop|(sel & _ & Hinst)].
    + destruct (stops_written _ _ _ _ _ _ Hstop Hin).
    + apply (installs_written _ _ _ _ _ _ _ _ Hinst Hin).
  - destruct (epson_shape os) as [Hstop|Hinst].
    + destruct (stops_written _ _ _ _ _ _ Hstop Hin).
    + apply (installs_written _ _ _ _ _ _ _ _ Hinst Hin).
Qed.

Lemma X7_unit_files_mode_0644_witness :
  In (WriteFile Escpos.socketFilePath Escpos.socketFileContent perm0644 None)
    (escposTrace 5 demoOS) /\
  perm0644 = 420.
Proof.
  split; [exact demo_socket_written|].
  exact (X7_unit_files_mode_0644 5 demoOS _ _ perm0644 None (or_introl demo_socket_written)).
Defined.

Lemma installs_socket_first x os o t data perm err :
  Installs x os o t ->
  servicePath x <> socketPath x ->
  In (WriteFile (servicePath x) data perm err) t ->
  In (WriteFile (socketPath x) (socketData x) perm0644 None) t.
Proof.
  intros Hinst Hdiff Hin.
  destruct (installs_written _ _ _ _ _ _ _ _ Hinst Hin)
    as [_ [(Hname & _)|(_ & _ & _ & Hsock)]]; [contradiction|].
  destruct Hinst as (pre & _ & -> & _).
  apply in_or_app. right. unfold provisionEvents. apply in_or_app. left.
  unfold writePhase. rewrite Hsock. left. reflexivity.
Qed.

(** X8.  In both installers the service unit file is written only after
    the socket unit file has been written without error: a failed socket
    write leaves the service file untouched. *)
Theorem X8_service_written_after_socket_success (fuel : nat) (os : OS)
    (data : string) (perm : Z) (err : option error) :
  (In (WriteFile Escpos.serviceFilePath data perm err) (escposTrace fuel os) ->
   In (WriteFile Escpos.socketFilePath Escpos.socketFileContent 420 None)
     (escposTrace fuel os)) /\
  (In (WriteFile Epson.serviceFilePath data perm err) (epsonTrace os) ->
   In (WriteFile Epson.socketFilePath Epson.socketFileContent 420 None) (epsonTrace os)).
Proof.
  split; intros Hin.
  - destruct (escpos_shape fuel os) as [Hstop|(sel & _ & Hinst)].
    + destruct (stops_written _ _ _ _ _ _ Hstop Hin).
    + apply (installs_socket_first (EscposTrace.script sel) os _ _ data perm err Hinst);
        [discriminate|exact Hin].
  - destruct (epson_shape os) as [Hstop|Hinst].
    + destruct (stops_written _ _ _ _ _ _ Hstop Hin).
    + apply (installs_socket_first EpsonTrace.script os _ _ data perm err Hinst);
        [discriminate|exact Hin].
Qed.

Lemma X8_service_written_after_socket_success_witness :
  In (WriteFile Escpos.socketFilePath Escpos.socketFileContent 420 None)
    (escposTrace 5 demoOS).
Proof.
  exact (proj1 (X8_service_written_after_socket_success 5 demoOS _ perm0644 None)
           demo_service_written).
Defined.

(** ** Input and discovery against the writes *)

(** X9.  The Epson installer never globs, stats or reads standard input,
    on any machine and for any user. *)
Theorem X9_epson_never_discovers_nor_reads (os : OS) :
  filter (fun e => isScan e || isDiscovery e) (epsonTrace os) = [] /\
  nscan (snd (run Epson.main os)) = 0%nat.
Proof.
  unfold epsonTrace. rewrite epson_main_run.
  destruct (negb (euid os =? 0)); cbn [snd trace nscan].
  - auto.
  - split; [|reflexivity]. rewrite filter_app, provision_no_input. reflexivity.
Qed.

Lemma discovery_no_write os matches :
  forall e, In e (EscposTrace.discovery os matches) -> isWrite e = false.
Proof.
  unfold EscposTrace.discovery. intros e [<-|H]; [reflexivity|].
  apply in_app_or in H. destruct H as [H|[<-|H]]; try reflexivity.
  - apply in_map_iff in H. destruct H as (m & <- & _). reflexivity.
  - apply in_map_iff in H. destruct H as (m & <- & _). reflexivity.
Qed.

Lemma numberedFrom_stdout (printers : list string) : forall i e,
  In e (numberedFrom i printers) -> exists text, e = Stdout text.
Proof.
  induction printers as [|p rest IH]; intros i e H; simpl in H; [contradiction|].
  destruct H as [<-|H]; eauto.
Qed.

Lemma rejections_no_write os (n : nat) : forall start e,
  In e (rejections os start n) -> isWrite e = false.
Proof.
  induction n as [|n IH]; intros start e H; simpl in H; [contradiction|].
  destruct H as [<-|[<-|[<-|H]]]; try reflexivity. eapply IH; eauto.
Qed.

(** X10.  In the ESC/POS installer discovery and selection are over when
    the first file is written: after a write nothing is globbed, stat'ed
    or read from standard input. *)
Theorem X10_no_input_after_first_write (fuel : nat) (os : OS)
    (pre : list Event) (e : Event) (post : list Event) :
  escposTrace fuel os = (pre ++ e :: post)%list ->
  isWrite e = true ->
  filter (fun e' => isScan e' || isDiscovery e') post = [].
Proof.
  unfold escposTrace.
  pose proof (escpos_cases fuel os) as Hcase.
  intros Heq He.
  assert (Hin : In e (trace (snd (run (Escpos.main fuel) os)))).
  { rewrite Heq. apply in_elt. }
  destruct Hcase as [Huid|e0 Huid Hglob|matches Huid Hglob Hnone
                    |matches Huid Hglob Hsome Hfirst
                    |matches n k sel Huid Hglob Hfirst Hscan Hk Hnth]; cbn [trace] in *.
  - exfalso. simpl in Hin.
    repeat (destruct Hin as [<-|Hin]; [discriminate|]). contradiction.
  - exfalso. simpl in Hin.
    repeat (destruct Hin as [<-|Hin]; [discriminate|]). contradiction.
  - exfalso. apply in_app_or in Hin. destruct Hin as [Hin|Hin].
    + apply in_app_or in Hin. destruct Hin as [Hin|Hin].
      * simpl in Hin. repeat (destruct Hin as [<-|Hin]; [discriminate|]). contradiction.
      * rewrite (discovery_no_write os matches e Hin) in He. discriminate.
    + destruct Hin as [<-|[]]. discriminate.
  - exfalso. apply in_app_or in Hin. destruct Hin as [Hin|Hin].
    + apply in_app_or in Hin. destruct Hin as [Hin|Hin].
      * simpl in Hin. repeat (destruct Hin as [<-|Hin]; [discriminate|]). contradiction.
      * rewrite (discovery_no_write os matches e Hin) in He. discriminate.
    + destruct Hin as [<-|Hin]; [discriminate|].
      apply in_app_or in Hin. destruct Hin as [Hin|Hin].
      * apply numberedFrom_stdout in Hin. destruct Hin as (text & ->). discriminate.
      * rewrite (rejections_no_write os fuel 0 e Hin) in He. discriminate.
  - rewrite app_assoc in Heq.
    change (EscposTrace.selectedLine sel :: provisionEvents (EscposTrace.script sel) os)
      with ([EscposTrace.selectedLine sel] ++ provisionEvents (EscposTrace.script sel) os)%list
      in Heq.
    rewrite app_assoc in Heq.
    match type of Heq with
    | (?prefix ++ _)%list = _ =>
        assert (Hpre : forall y, In y prefix -> isWrite y = false)
    end.
    { intros y Hy. apply in_app_or in Hy. destruct Hy as [Hy|Hy].
      2:{ destruct Hy as [<-|[]]. reflexivity. }
      apply in_app_or in Hy. destruct Hy as [Hy|Hy].
      - apply in_app_or in Hy. destruct Hy as [Hy|Hy].
        + simpl in Hy. repeat (destruct Hy as [<-|Hy]; [reflexivity|]). contradiction.
        + exact (discovery_no_write os matches y Hy).
      - destruct Hy as [<-|Hy]; [reflexivity|].
        apply in_app_or in Hy. destruct Hy as [Hy|Hy].
        + apply numberedFrom_stdout in Hy. destruct Hy as (text & ->). reflexivity.
        + apply in_app_or in Hy. destruct Hy as [Hy|Hy].
          * exact (rejections_no_write os n 0 y Hy).
          * simpl in Hy. repeat (destruct Hy as [<-|Hy]; [reflexivity|]). contradiction. }
    destruct (split_after isWrite _ _ _ _ _ Hpre He Heq) as (pre' & _ & Hprov).
    pose proof (provision_no_input (EscposTrace.script sel) os) as Hno.
    rewrite Hprov, filter_app in Hno. apply app_eq_nil in Hno.
    destruct Hno as [_ Hno]. simpl in Hno.
    destruct (isScan e || isDiscovery e); [discriminate|exact Hno].
Qed.

Lemma X10_no_input_after_first_write_witness :
  filter (fun e' => isScan e' || isDiscovery e') (skipn 20 (escposTrace 5 demoOS)) = [].
Proof.
  apply (X10_no_input_after_first_write 5 demoOS
           (firstn 19 (escposTrace 5 demoOS))
           (WriteFile Escpos.socketFilePath Escpos.socketFileContent perm0644 None)
           (skipn 20 (escposTrace 5 demoOS))).
  - vm_compute. reflexivity.
  - reflexivity.
Defined.

(** ** Completed and failed runs *)

Lemma allSucceed_forall os cmds :
  allSucceed os cmds = true <-> forall c, In c cmds -> snd (commandResult os c) = None.
Proof.
  unfold allSucceed. rewrite forallb_forall. split; intros H c Hc; specialize (H c Hc).
  - destruct (snd (commandResult os c)); [discriminate|reflexivity].
  - now rewrite H.
Qed.

Lemma provisionOutcome_done_iff x os :
  provisionOutcome x os = Done tt <->
  socketWrite x os = None /\ serviceWrite x os = None /\
  forall c, In c (cmds x) -> snd (commandResult os c) = None.
Proof.
  rewrite <- allSucceed_forall. unfold provisionOutcome, writesSucceed. split.
  - destruct (socketWrite x os); [discriminate|].
    destruct (serviceWrite x os); [discriminate|].
    destruct (allSucceed os (cmds x)); [auto|discriminate].
  - intros (-> & -> & ->). reflexivity.
Qed.

(** X11.  The Epson installer returns from [main] (exit status 0) exactly
    when root runs it, both unit files are written without error and each
    of the three commands returns without error.  The ESC/POS installer
    does so exactly when, in addition, a printer has been selected, the
    service unit being the one formatted for that printer. *)
Theorem X11_completes_iff_every_step_succeeds (fuel : nat) (os : OS) :
  (fst (run Epson.main os) = Done tt <->
   euid os = 0 /\
   writeResult os Epson.socketFilePath Epson.socketFileContent 420 = None /\
   writeResult os Epson.serviceFilePath Epson.serviceFileContent 420 = None /\
   forall c, In c (systemctlCommands "epson-printer") -> snd (commandResult os c) = None) /\
  (fst (run (Escpos.main fuel) os) = Done tt <->
   exists selectedPrinter,
     selects fuel os selectedPrinter /\
     writeResult os Escpos.socketFilePath Escpos.socketFileContent 420 = None /\
     writeResult os Escpos.serviceFilePath (Escpos.serviceFileContent selectedPrinter) 420
       = None /\
     forall c, In c (systemctlCommands "escpos-printer") -> snd (commandResult os c) = None).
Proof.
  split.
  - rewrite epson_main_run.
    destruct (Z.eq_dec (euid os) 0) as [Huid|Huid].
    + rewrite Huid. cbn [Z.eqb negb fst].
      rewrite (provisionOutcome_done_iff EpsonTrace.script os).
      split; [intros H; split; [reflexivity|exact H]|intros [_ H]; exact H].
    + apply Z.eqb_neq in Huid as Hb. rewrite Hb. cbn [negb fst].
      split; [discriminate|]. intros [H _]. contradiction.
  - split.
    + intros Hdone. destruct (escpos_shape fuel os) as [[_ [H|H]]|(sel & Hsel & Hinst)];
        try congruence.
      exists sel. split; [exact Hsel|].
      destruct Hinst as (pre & _ & _ & Ho). rewrite Ho in Hdone.
      apply (provisionOutcome_done_iff (EscposTrace.script sel) os) in Hdone. exact Hdone.
    + intros (sel & (matches & Huid & Hglob & Hsel) & Hwrites).
      rewrite escpos_main_run, Huid, Hglob. cbn [Z.eqb negb].
      destruct (Escpos.selectPrinter fuel (EscposTrace.discovered os matches) os _)
        as [o s]. simpl in Hsel. subst o. cbn [fst].
      apply (provisionOutcome_done_iff (EscposTrace.script sel) os). exact Hwrites.
Qed.

Lemma greeting_discovery_no_fatal os matches :
  filter isFatal (EscposTrace.greeting ++ EscposTrace.discovery os matches) = [].
Proof.
  rewrite filter_app. simpl. unfold EscposTrace.discovery. simpl.
  rewrite filter_app. simpl.
  replace (filter isFatal (map Stat matches)) with (@nil Event)
    by (induction matches; simpl; auto).
  simpl. induction (EscposTrace.discovered os matches); simpl; auto.
Qed.

Lemma numberedFrom_no_fatal (printers : list string) : forall i,
  filter isFatal (numberedFrom i printers) = [].
Proof. induction printers; intros i; simpl; auto. Qed.

Lemma rejections_no_fatal os (n : nat) : forall start,
  filter isFatal (rejections os start n) = [].
Proof. induction n; intros start; simpl; auto. Qed.

Lemma provision_fatal_last x os pre :
  filter isFatal pre = [] ->
  (provisionOutcome x os = Exit 1 ->
   exists pre' text,
     (pre ++ provisionEvents x os)%list = (pre' ++ [LogFatal text])%list /\
     filter isFatal pre' = []) /\
  (provisionOutcome x os <> Exit 1 -> filter isFatal (pre ++ provisionEvents x os) = []).
Proof.
  intros Hpre. split.
  - intros Hexit. destruct (provision_exit x os Hexit) as (mid & text & -> & Hmid).
    exists (pre ++ mid)%list, text. rewrite app_assoc, filter_app, Hpre, Hmid. auto.
  - intros Hne. destruct (provisionOutcome_cases x os) as [Hdone|Hexit]; [|contradiction].
    destruct (provision_done x os Hdone) as (_ & _ & _ & ->).
    rewrite !filter_app, Hpre, stdout_no_fatal. simpl.
    induction (cmds x); simpl; auto.
Qed.

(** X12.  A run of either installer that ends with [os.Exit(1)] has
    logged exactly one fatal message, and that is the last thing it did;
    a run that does not end that way has logged none.  No failure is
    silent, and nothing is printed, written or run after a fatal error. *)
Theorem X12_fatal_message_is_last (fuel : nat) (os : OS) :
  (fst (run (Escpos.main fuel) os) = Exit 1 ->
   exists pre text,
     escposTrace fuel os = (pre ++ [LogFatal text])%list /\ filter isFatal pre = []) /\
  (fst (run (Escpos.main fuel) os) <> Exit 1 -> filter isFatal (escposTrace fuel os) = []) /\
  (fst (run Epson.main os) = Exit 1 ->
   exists pre text,
     epsonTrace os = (pre ++ [LogFatal text])%list /\ filter isFatal pre = []) /\
  (fst (run Epson.main os) <> Exit 1 -> filter isFatal (epsonTrace os) = []).
Proof.
  assert (Hescpos :
    (fst (run (Escpos.main fuel) os) = Exit 1 ->
     exists pre text,
       escposTrace fuel os = (pre ++ [LogFatal text])%list /\ filter isFatal pre = []) /\
    (fst (run (Escpos.main fuel) os) <> Exit 1 ->
     filter isFatal (escposTrace fuel os) = [])).
  { unfold escposTrace.
    pose proof (escpos_cases fuel os) as Hcase.
    destruct Hcase as [Huid|e0 Huid Hglob|matches Huid Hglob Hnone
                      |matches Huid Hglob Hsome Hfirst
                      |matches n k sel Huid Hglob Hfirst Hscan Hk Hnth]; cbn [trace].
    - split; [|congruence]. intros _.
      exists (removelast EscposTrace.refused). eexists. split; reflexivity.
    - split; [|congruence]. intros _.
      exists (EscposTrace.greeting ++ [Glob "/dev/usb/lp*"])%list. eexists.
      split; reflexivity.
    - split; [|congruence]. intros _.
      exists (EscposTrace.greeting ++ EscposTrace.discovery os matches)%list. eexists.
      split; [reflexivity|]. apply greeting_discovery_no_fatal.
    - split; [discriminate|]. intros _.
      rewrite filter_app, greeting_discovery_no_fatal. simpl.
      now rewrite filter_app, numberedFrom_no_fatal, rejections_no_fatal.
    - rewrite app_assoc.
      change (EscposTrace.selectedLine sel :: provisionEvents (EscposTrace.script sel) os)
        with ([EscposTrace.selectedLine sel]
                ++ provisionEvents (EscposTrace.script sel) os)%list.
      rewrite app_assoc. apply provision_fatal_last.
      rewrite 2 filter_app, greeting_discovery_no_fatal. simpl.
      now rewrite !filter_app, numberedFrom_no_fatal, rejections_no_fatal. }
  destruct Hescpos as [H1 H2]. split; [exact H1|]. split; [exact H2|].
  unfold epsonTrace. rewrite epson_main_run.
  destruct (negb (euid os =? 0)); cbn [fst snd trace].
  - split; [|congruence]. intros _.
    exists (removelast EpsonTrace.refused). eexists. split; reflexivity.
  - apply provision_fatal_last. reflexivity.
Qed.

Lemma X11_completes_iff_every_step_succeeds_witness :
  fst (run Epson.main demoOS) = Done tt.
Proof.
  apply (proj1 (X11_completes_iff_every_step_succeeds 0 demoOS)).
  repeat split.
Defined.

Lemma X12_fatal_message_is_last_witness :
  fst (run (Escpos.main 5) serviceWriteFailsOS) = Exit 1 /\
  exists pre text,
    escposTrace 5 serviceWriteFailsOS = (pre ++ [LogFatal text])%list /\
    filter isFatal pre = [].
Proof.
  assert (H : fst (run (Escpos.main 5) serviceWriteFailsOS) = Exit 1)
    by (vm_compute; reflexivity).
  split; [exact H|].
  exact (proj1 (X12_fatal_message_is_last 5 serviceWriteFailsOS) H).
Defined.

(** ** The lines of the service unit *)

Lemma lines_noLF (s : string) : noLF s = true -> lines s = [s].
Proof.
  induction s as [|c s IH]; simpl; [reflexivity|].
  intros H. apply andb_true_iff in H. destruct H as [Hc Hs].
  apply negb_true_iff in Hc. rewrite Hc, (IH Hs). reflexivity.
Qed.

Lemma noLF_app (a b : string) : noLF a = true -> noLF b = true -> noLF (a ++ b) = true.
Proof.
  induction a as [|c a IH]; simpl; [auto|].
  intros H Hb. apply andb_true_iff in H. destruct H as [Hc Ha].
  now rewrite Hc, IH.
Qed.

Lemma serviceFileContent_head (printerPath : string) :
  lines (Escpos.serviceFileContent printerPath) =
    (["[Unit]"; "Description=ESC/POS Printer Service"; ""; "[Service]"]
       ++ lines ("ExecStart=-/usr/bin/tee /dev/null > " ++ printerPath
                   ++ LF ++ "StandardInput=socket" ++ LF))%list.
Proof.
  rewrite serviceFileContent_eq.
  change (rawLines ["[Unit]"; "Description=ESC/POS Printer Service"; ""; "[Service]"]
            ++ "ExecStart=-/usr/bin/tee /dev/null > " ++ printerPath
            ++ LF ++ "StandardInput=socket" ++ LF)
    with ("[Unit]" ++ LF ++ "Description=ESC/POS Printer Service" ++ LF ++ "" ++ LF
            ++ "[Service]" ++ LF
            ++ ("ExecStart=-/usr/bin/tee /dev/null > " ++ printerPath
                  ++ LF ++ "StandardInput=socket" ++ LF)).
  rewrite 4 lines_app_LF. reflexivity.
Qed.

(** X13.  For a printer path without line feed the service unit has
    exactly the six lines of the template, the path standing at the end of
    the [ExecStart] line. *)
Theorem X13_service_unit_lines (printerPath : string) :
  noLF printerPath = true ->
  lines (Escpos.serviceFileContent printerPath) =
    ["[Unit]";
     "Description=ESC/POS Printer Service";
     "";
     "[Service]";
     "ExecStart=-/usr/bin/tee /dev/null > " ++ printerPath;
     "StandardInput=socket";
     ""].
Proof.
  intros Hp. rewrite serviceFileContent_head.
  rewrite <- (append_assoc "ExecStart=-/usr/bin/tee /dev/null > " printerPath).
  rewrite lines_app_LF, lines_noLF by (apply noLF_app; [reflexivity|exact Hp]).
  reflexivity.
Qed.

Lemma X13_service_unit_lines_witness :
  In "ExecStart=-/usr/bin/tee /dev/null > /dev/usb/lp1"
    (lines (Escpos.serviceFileContent "/dev/usb/lp1")).
Proof.
  rewrite (X13_service_unit_lines "/dev/usb/lp1" eq_refl). simpl. tauto.
Defined.

(** X14.  The path is not quoted: a line feed in it ends the [ExecStart]
    line, and what follows the line feed becomes a line of its own in the
    [Service] section. *)
Theorem X14_line_feed_in_path_adds_a_line (a b : string) :
  noLF a = true ->
  noLF b = true ->
  lines (Escpos.serviceFileContent (a ++ LF ++ b)) =
    ["[Unit]";
     "Description=ESC/POS Printer Service";
     "";
     "[Service]";
     "ExecStart=-/usr/bin/tee /dev/null > " ++ a;
     b;
     "StandardInput=socket";
     ""].
Proof.
  intros Ha Hb. rewrite serviceFileContent_head.
  rewrite (append_assoc a), (append_assoc LF b).
  rewrite <- (append_assoc "ExecStart=-/usr/bin/tee /dev/null > " a).
  rewrite lines_app_LF, lines_app_LF.
  rewrite (lines_noLF _ Hb), lines_noLF by (apply noLF_app; [reflexivity|exact Ha]).
  reflexivity.
Qed.

Lemma X14_line_feed_in_path_adds_a_line_witness :
  In "User=root" (lines (Escpos.serviceFileContent ("/dev/usb/lp0" ++ LF ++ "User=root"))).
Proof.
  rewrite (X14_line_feed_in_path_adds_a_line "/dev/usb/lp0" "User=root" eq_refl eq_refl).
  simpl. tauto.
Defined.

(** ** The run in which everything succeeds *)

(** X15.  The whole run of the ESC/POS installer when every step
    succeeds.  Root starts it; discovery prints the number of printers
    found and each path; the prompt lists them, rejects [n] inputs and
    accepts the number [k]; the socket unit and the service unit formatted
    for printer [k] are written; the three commands run; the closing
    lines are printed and [main] returns.  Exactly [n + 1] inputs have
    been read. *)
Theorem X15_successful_run (fuel n : nat) (os : OS) (matches : list string)
    (k : Z) (selectedPrinter : string) :
  euid os = 0 ->
  globResult os "/dev/usb/lp*" = Ok matches ->
  (forall j, (j < n)%nat ->
     accepted (filter (charDeviceAt os) matches) (scanResult os j) = false) ->
  scanResult os n = ScanOk k ->
  1 <= k ->
  nth_error (filter (charDeviceAt os) matches) (Z.to_nat (k - 1)) = Some selectedPrinter ->
  (n < fuel)%nat ->
  writeResult os Escpos.socketFilePath Escpos.socketFileContent 420 = None ->
  writeResult os Escpos.serviceFilePath (Escpos.serviceFileContent selectedPrinter) 420
    = None ->
  (forall c, In c (systemctlCommands "escpos-printer") -> snd (commandResult os c) = None) ->
  run (Escpos.main fuel) os =
    (Done tt,
     {| trace :=
          [Stdout ("Iniciando la configuración del servicio de impresora ESC/POS..." ++ LF);
           Geteuid;
           Stdout ("✓ Permisos de root confirmados." ++ LF);
           Glob "/dev/usb/lp*"]
          ++ map Stat matches
          ++ Stdout (itoa (len (filter (charDeviceAt os) matches)) ++ LF)
          :: map (fun p => Stdout (p ++ LF)) (filter (charDeviceAt os) matches)
          ++ Stdout (LF ++ "Se encontraron las siguientes impresoras USB:" ++ LF)
          :: numberedFrom 1 (filter (charDeviceAt os) matches)
          ++ rejections os 0 n
          ++ [Stdout promptText;
              Scanln (ScanOk k);
              Stdout ("✓ Impresora seleccionada: " ++ selectedPrinter ++ LF);
              WriteFile Escpos.socketFilePath Escpos.socketFileContent 420 None;
              Stdout ("✓ Archivo de socket creado exitosamente: "
                        ++ Escpos.socketFilePath ++ LF);
              WriteFile Escpos.serviceFilePath
                (Escpos.serviceFileContent selectedPrinter) 420 None;
              Stdout ("✓ Archivo de servicio creado exitosamente: "
                        ++ Escpos.serviceFilePath ++ LF)]
          ++ flat_map
               (fun c =>
                  [Stdout ("Ejecutando: " ++ strings_Join c " " ++ "..." ++ LF);
                   Exec c (fst (commandResult os c)) None;
                   Stdout ("✓ Comando exitoso." ++ LF)])
               (systemctlCommands "escpos-printer")
          ++ [Stdout (LF ++ "🎉 ¡Configuración completa! El socket de la impresora ESC/POS está activo y habilitado." ++ LF);
              Stdout ("La PC está lista para aceptar trabajos de impresión en el puerto TCP 9100." ++ LF)];
        nscan := S n |}).
Proof.
  intros Huid Hglob Hrej Hscan Hk1 Hnth Hfuel Hsock Hserv Hcmds.
  fold (EscposTrace.discovered os matches) in *.
  assert (Hne : EscposTrace.discovered os matches <> []).
  { intros Hnil. rewrite Hnil in Hnth. destruct (Z.to_nat (k - 1)); discriminate. }
  assert (Hk : 1 <= k <= len (EscposTrace.discovered os matches)).
  { assert (Hlt : (Z.to_nat (k - 1) < List.length (EscposTrace.discovered os matches))%nat).
    { apply nth_error_Some. congruence. }
    unfold len. lia. }
  assert (Hacc : accepted (EscposTrace.discovered os matches) (scanResult os (0 + n)) = true).
  { simpl. rewrite Hscan. simpl. apply andb_true_iff. split; lia. }
  pose proof (firstAccepted_found (EscposTrace.discovered os matches) os n fuel 0%nat
                Hrej Hacc Hfuel) as Hfirst.
  pose proof (escpos_run_total fuel os matches Huid Hglob Hne) as Hrun.
  rewrite Hfirst in Hrun. destruct Hrun as (k' & sel' & Hscan' & _ & Hnth' & ->).
  rewrite Hscan in Hscan'. injection Hscan' as <-.
  rewrite Hnth in Hnth'. injection Hnth' as <-.
  assert (Hdone : provisionOutcome (EscposTrace.script selectedPrinter) os = Done tt).
  { apply provisionOutcome_done_iff. auto. }
  destruct (provision_done _ _ Hdone) as (_ & _ & _ & ->). rewrite Hdone.
  f_equal. f_equal.
  unfold EscposTrace.greeting, EscposTrace.discovery, EscposTrace.selectedLine, headerText.
  cbn [socketPath socketData servicePath serviceData socketCreated serviceCreated cmds
       farewell EscposTrace.script map].
  simpl app. rewrite <- !app_assoc. simpl app. reflexivity.
Qed.

Lemma X15_successful_run_witness :
  fst (run (Escpos.main 5) demoOS) = Done tt /\
  nscan (snd (run (Escpos.main 5) demoOS)) = 2%nat.
Proof.
  assert (Hrej : forall j, (j < 1)%nat ->
            accepted (filter (charDeviceAt demoOS)
                        ["/dev/usb/lp0"; "/dev/usb/lp1"; "/dev/usb/lpx"])
              (scanResult demoOS j) = false).
  { intros j Hj. assert (j = 0%nat) as -> by lia. reflexivity. }
  assert (Hk : 1 <= 2) by lia.
  assert (Hfuel : (1 < 5)%nat) by lia.
  rewrite (X15_successful_run 5 1 demoOS ["/dev/usb/lp0"; "/dev/usb/lp1"; "/dev/usb/lpx"]
             2 "/dev/usb/lp1" eq_refl eq_refl Hrej eq_refl Hk eq_refl Hfuel
             eq_refl eq_refl (fun c _ => eq_refl)).
  split; reflexivity.
Defined.

(** X16.  The whole run of the Epson installer when every step succeeds:
    for root, with both writes and the three commands returning without
    error, it writes the two constant unit files, runs the commands in
    order, prints the closing lines and returns from [main]. *)
Theorem X16_epson_successful_run (os : OS) :
  euid os = 0 ->
  writeResult os Epson.socketFilePath Epson.socketFileContent 420 = None ->
  writeResult os Epson.serviceFilePath Epson.serviceFileContent 420 = None ->
  (forall c, In c (systemctlCommands "epson-printer") -> snd (commandResult os c) = None) ->
  run Epson.main os =
    (Done tt,
     {| trace :=
          [Stdout ("Starting Epson Printer Service Setup..." ++ LF);
           Geteuid;
           Stdout ("✓ Root privileges confirmed." ++ LF);
           WriteFile Epson.socketFilePath Epson.socketFileContent 420 None;
           Stdout ("✓ Successfully created " ++ Epson.socketFilePath ++ LF);
           WriteFile Epson.serviceFilePath Epson.serviceFileContent 420 None;
           Stdout ("✓ Successfully created " ++ Epson.serviceFilePath ++ LF)]
          ++ flat_map
               (fun c =>
                  [Stdout ("Executing: " ++ strings_Join c " " ++ "..." ++ LF);
                   Exec c (fst (commandResult os c)) None;
                   Stdout ("✓ Command successful." ++ LF)])
               (systemctlCommands "epson-printer")
          ++ [Stdout (LF ++ "🎉 Setup complete! The epson printer socket is active and enabled." ++ LF);
              Stdout ("The PC is now ready to accept print jobs on TCP port 9100." ++ LF)];
        nscan := 0 |}).
Proof.
  intros Huid Hsock Hserv Hcmds.
  rewrite epson_main_run, Huid. cbn [Z.eqb negb].
  assert (Hdone : provisionOutcome EpsonTrace.script os = Done tt).
  { apply provisionOutcome_done_iff. auto. }
  destruct (provision_done _ _ Hdone) as (_ & _ & _ & ->). rewrite Hdone.
  reflexivity.
Qed.

Lemma X16_epson_successful_run_witness :
  fst (run Epson.main demoOS) = Done tt /\
  execArgs (epsonTrace demoOS) = systemctlCommands "epson-printer".
Proof.
  unfold epsonTrace.
  rewrite (X16_epson_successful_run demoOS eq_refl eq_refl eq_refl (fun c _ => eq_refl)).
  split; reflexivity.
Defined.
